(** * Team chat relay: session registry, team channels, bounded history

    A shallow embedding of the WebSocket chat relay.  Two revisions of the
    server are embedded, each in its own module:

    - [Server]  : [src/server.js] (team code only, [auth-request] followed by
                  [join-team], [MAX_HISTORY = 100], 30 minute lifetime);
    - [Part002] : [src/unnamed/part_002] (team code plus author key in a single
                  [join-team], [MAX_HISTORY = 50], 10 minute lifetime).

    Modelling conventions, shared by both modules.

    - A WebSocket object is identified by a natural number, allocated by the
      transport when the connection is accepted and never reused: a stale
      reference kept in a team set after the socket closed stays distinct
      from every later connection.
    - [wss.clients] is the insertion-ordered list of accepted sockets with
      their [readyState]; a socket that is no longer in it is [CLOSED].
    - A handler returns the new state together with the list of [ws.send]
      calls it performed, in program order.
    - [Date.now()] and [getCurrentTime()] are read from a [Clock] value that
      the event carries.
    - Inbound frames are typed as the protocol types them: string fields, an
      optional field being [None] when it is absent.  A team code or author
      key that the handlers compare with [===] is a [Field], which tells an
      absent field from [null] and from a string.  Fields of other JSON
      types (numbers, booleans, arrays, objects) are not modelled.
    - The object literals [teamCodes] and [messageHistory] are modelled by
      their own properties, a [gmap string _], together with the names that
      every object literal inherits from [Object.prototype]
      ([inheritedNames]): an index expression finds the own property first,
      then the inherited one, which is truthy and is neither a team nor an
      array. *)

From stdpp Require Import gmap strings list fin_maps.

Open Scope string_scope.
Open Scope list_scope.
Open Scope nat_scope.

(** ** Shared data *)

Definition conn := nat.

Inductive ReadyState := CONNECTING | OPEN | CLOSING | CLOSED.

#[global] Instance ReadyState_eq_dec : EqDecision ReadyState.
Proof. solve_decision. Defined.

Record Clock := { now : Z; stamp : string }.

(** The two record shapes that are stored in [messageHistory] and sent with
    [JSON.stringify(msg)]. *)
Inductive Msg :=
| ChatMsg (username : option string) (text timestamp channel : string) (_rawTime : Z)
| SysMsg (text timestamp : string) (_rawTime : Z).

#[global] Instance Msg_eq_dec : EqDecision Msg.
Proof. solve_decision. Defined.

Definition rawTime (m : Msg) : Z :=
  match m with
  | ChatMsg _ _ _ _ t => t
  | SysMsg _ _ t => t
  end.

Definition isSystem (m : Msg) : bool :=
  match m with SysMsg _ _ _ => true | ChatMsg _ _ _ _ _ => false end.

(** What [ws.send] is given.  [OHistoryInherited name] is the
    [chat-history] frame whose [messages] is not a list but the value that
    [messageHistory] inherits under [name]; [JSON.stringify] leaves a
    function out of the frame. *)
Inductive Outbound :=
| OSystem (text timestamp : string)
| OAuthResponse (success : bool) (code : option string) (timestamp : string)
| ORecord (m : Msg)
| OHistory (messages : list Msg)
| OHistoryInherited (name : string).

#[global] Instance Outbound_eq_dec : EqDecision Outbound.
Proof. solve_decision. Defined.

Definition Send : Type := conn * Outbound.

(** [x || d] on an optional string: absent, null and the empty string are
    falsy. *)
Definition orDefault (x : option string) (d : string) : string :=
  match x with
  | Some s => if decide (s = "") then d else s
  | None => d
  end.

(** A truthy optional string, as in [if (teamName)] and [if (user.teamCode)]. *)
Definition truthy (x : option string) : bool :=
  match x with Some s => bool_decide (s ≠ "") | None => false end.

(** A field of a frame that the handlers compare with [===]: absent
    ([undefined]), [null], or a string. *)
Inductive Field := Absent | Null | Str (s : string).

#[global] Instance Field_eq_dec : EqDecision Field.
Proof. solve_decision. Defined.

(** The property key that an index expression [obj[field]] uses. *)
Definition fieldKey (f : Field) : string :=
  match f with
  | Absent => "undefined"
  | Null => "null"
  | Str s => s
  end.

(** The value a session's [teamCode] takes when it is assigned a field:
    [null] or a string. *)
Definition fieldTeam (f : Field) : option string :=
  match f with
  | Str s => Some s
  | Absent | Null => None
  end.

(** ** Object literals used as maps *)

(** The properties that every object literal inherits from
    [Object.prototype]. *)
Definition inheritedNames : list string :=
  [ "constructor"; "__proto__"; "hasOwnProperty"; "isPrototypeOf";
    "propertyIsEnumerable"; "toLocaleString"; "toString"; "valueOf";
    "__defineGetter__"; "__defineSetter__"; "__lookupGetter__";
    "__lookupSetter__" ].

Definition inherited (name : string) : bool :=
  bool_decide (name ∈ inheritedNames).
Arguments inherited : simpl never.

(** An inherited value inside a template literal, as Node prints it: the
    prototype object itself for [__proto__], a native function otherwise. *)
Definition inheritedText (name : string) : string :=
  if decide (name = "__proto__") then "[object Object]"
  else "function " +:+ (if decide (name = "constructor") then "Object" else name)
       +:+ "() { [native code] }".

(** ** wss.clients and readyState *)

Definition readyStateOf (clients : list (conn * ReadyState)) (c : conn) : ReadyState :=
  match list_find (λ p, p.1 = c) clients with
  | Some (_, p) => p.2
  | None => CLOSED
  end.

Definition setReadyState (c : conn) (r : ReadyState)
    (clients : list (conn * ReadyState)) : list (conn * ReadyState) :=
  (λ p, if decide (p.1 = c) then (c, r) else p) <$> clients.

Definition removeClient (c : conn) (clients : list (conn * ReadyState))
    : list (conn * ReadyState) :=
  filter (λ p, p.1 ≠ c) clients.

(** ** A JavaScript [Set] of sockets, in insertion order *)

Definition setAdd (c : conn) (l : list conn) : list conn :=
  if decide (c ∈ l) then l else l ++ [c].

Definition setDelete (c : conn) (l : list conn) : list conn :=
  filter (λ x, x ≠ c) l.

(** [set.forEach(client => { if (client.readyState === OPEN) client.send(o) })] *)
Definition sendToOpen (clients : list (conn * ReadyState)) (targets : list conn)
    (o : Outbound) : list Send :=
  (λ c, (c, o)) <$> filter (λ c, readyStateOf clients c = OPEN) targets.

(** ** messageHistory *)

(** The buffer stored under [channel], empty when [messageHistory] has no
    buffer of its own there. *)
Definition getHistory (h : gmap string (list Msg)) (channel : string) : list Msg :=
  default [] (h !! channel).

(** The frame of [sendHistory], whose [messages] is
    [messageHistory[channel] || []]: the buffer when there is one, the
    inherited value under an inherited name, the empty list otherwise. *)
Definition historyFrame (h : gmap string (list Msg)) (channel : string) : Outbound :=
  match h !! channel with
  | Some buf => OHistory buf
  | None => if inherited channel then OHistoryInherited channel else OHistory []
  end.

(** The block that both [handleChatMessage] and [broadcastSystemMessage]
    contain, where [messageHistory[channel]] is a buffer or is missing:
    create the buffer if missing, [push], then one [shift] if the length
    exceeds the bound. *)
Definition pushHistory (MAX_HISTORY : nat) (channel : string) (msg : Msg)
    (h : gmap string (list Msg)) : gmap string (list Msg) :=
  let buf := getHistory h channel ++ [msg] in
  <[channel := if decide (MAX_HISTORY < length buf) then tail buf else buf]> h.

(** Under an inherited name without a buffer of its own,
    [messageHistory[channel]] is truthy and has no [push]: the block raises
    a [TypeError] before it has changed anything. *)
Definition historyRaises (h : gmap string (list Msg)) (channel : string) : bool :=
  bool_decide (h !! channel = None) && inherited channel.

(** The same block on any channel name; [None] is the [TypeError]. *)
Definition appendHistory (MAX_HISTORY : nat) (channel : string) (msg : Msg)
    (h : gmap string (list Msg)) : option (gmap string (list Msg)) :=
  if historyRaises h channel then None
  else Some (pushHistory MAX_HISTORY channel msg h).

(** The body of the [setInterval] cleanup job. *)
Definition cleanup (MSG_LIFETIME_MS : Z) (now : Z) (h : gmap string (list Msg))
    : gmap string (list Msg) :=
  (λ buf, filter (λ msg, (now - rawTime msg < MSG_LIFETIME_MS)%Z) buf) <$> h.

(** The History Store's [append] as the specification words it: add at the
    tail, then drop from the head while the length exceeds the bound. *)
Fixpoint trimHead (MAX_HISTORY : nat) (fuel : nat) (buf : list Msg) : list Msg :=
  match fuel with
  | 0 => buf
  | S fuel' =>
      if decide (MAX_HISTORY < length buf)
      then trimHead MAX_HISTORY fuel' (tail buf)
      else buf
  end.

Definition appendSpec (MAX_HISTORY : nat) (msg : Msg) (buf : list Msg) : list Msg :=
  let buf' := buf ++ [msg] in trimHead MAX_HISTORY (length buf') buf'.

(** Events of the transport. *)
Inductive EventOf (Frame : Type) :=
| EConnect
| EMessage (ws : conn) (frame : Frame) (clk : Clock)
| EClosing (ws : conn)
| EClose (ws : conn) (clk : Clock)
| ESweep (now : Z).
Arguments EConnect {Frame}.
Arguments EMessage {Frame}.
Arguments EClosing {Frame}.
Arguments EClose {Frame}.
Arguments ESweep {Frame}.

(** ** src/server.js *)
Module Server.

Definition teamCodes : gmap string string :=
  <["[REKT]" := "REKT"]> (<["[SMT]" := "SMT"]> ∅).

Definition MAX_HISTORY : nat := 100.
Definition MSG_LIFETIME_MS : Z := 30 * 60 * 1000.

Record User := mkUser { username : string; teamCode : option string; joined : bool }.

(** [teamChannels] is a [Map]: its keys are the values that [teamCode]
    takes, [null] or a string. *)
Record State := mkState {
  nextConn : conn;
  clients : list (conn * ReadyState);
  users : gmap conn User;
  teamChannels : gmap (option string) (list conn);
  messageHistory : gmap string (list Msg)
}.

Definition init : State := mkState 0 [] ∅ ∅
  (<["global" := []]> (<["[REKT]" := []]> (<["[SMT]" := []]> ∅))).

Definition withClients f (s : State) : State :=
  mkState (nextConn s) (f (clients s)) (users s) (teamChannels s) (messageHistory s).
Definition withUsers f (s : State) : State :=
  mkState (nextConn s) (clients s) (f (users s)) (teamChannels s) (messageHistory s).
Definition withTeamChannels f (s : State) : State :=
  mkState (nextConn s) (clients s) (users s) (f (teamChannels s)) (messageHistory s).
Definition withHistory f (s : State) : State :=
  mkState (nextConn s) (clients s) (users s) (teamChannels s) (f (messageHistory s)).

(** A parsed frame, by [data.type].  [code] is absent, [null] or a string;
    [channel] is the string the frame carries. *)
Inductive Data :=
| UserJoin (username : option string)
| AuthRequest (code : Field)
| JoinTeam (code : Field)
| ChatMessage (text channel : string)
| GetHistory (channel : string)
| OtherType.

Inductive Frame := Unparsable | Json (data : Data).

(** The test [if (teamName)] on [teamCodes[code]]: a team of the table, or
    a value that the table inherits. *)
Definition teamCodeTruthy (code : string) : bool :=
  match teamCodes !! code with
  | Some name => truthy (Some name)
  | None => inherited code
  end.

(** The rendering of [teamCodes[code]] inside a template literal. *)
Definition teamLabel (code : string) : string :=
  match teamCodes !! code with
  | Some name => name
  | None => if inherited code then inheritedText code else "undefined"
  end.

Definition members (s : State) (code : string) : list conn :=
  default [] (teamChannels s !! Some code).

(** [user.teamCode === code] *)
Definition sameTeam (team : option string) (code : Field) : bool :=
  match team, code with
  | None, Null => true
  | Some t, Str c => bool_decide (t = c)
  | _, _ => false
  end.

Definition sendHistory (ws : conn) (channel : string) (s : State) : list Send :=
  [(ws, historyFrame (messageHistory s) channel)].

Definition broadcastMessage (msg : Msg) (s : State) : list Send :=
  (λ client, (client.1, ORecord msg)) <$> filter (λ client, client.2 = OPEN) (clients s).

(** Every call in [src/server.js] passes the literal "global", under which
    [messageHistory] has a buffer from the start. *)
Definition broadcastSystemMessage (clk : Clock) (text channel : string) (s : State)
    : State * list Send :=
  let msg := SysMsg text (stamp clk) (now clk) in
  let s' := withHistory (pushHistory MAX_HISTORY channel msg) s in
  (s', if decide (channel = "global") then broadcastMessage msg s'
       else sendToOpen (clients s') (members s' channel) (ORecord msg)).

(** The set is looked up and stored under [code], which the test has found
    equal to [user.teamCode]. *)
Definition handleJoinTeam (clk : Clock) (ws : conn) (code : Field) (s : State)
    : State * list Send :=
  match users s !! ws with
  | Some user =>
      if sameTeam (teamCode user) code then
        (withTeamChannels
           (<[teamCode user := setAdd ws (default [] (teamChannels s !! teamCode user))]>) s,
         [(ws, OSystem ("Joined team channel for " +:+ teamLabel (fieldKey code)) (stamp clk))])
      else (s, [])
  | None => (s, [])
  end.

(** The test only passes for a string: neither "undefined" nor "null" is a
    key of [teamCodes] or an inherited name. *)
Definition handleAuthRequest (clk : Clock) (ws : conn) (code : Field) (s : State)
    : State * list Send :=
  if teamCodeTruthy (fieldKey code) then
    match users s !! ws with
    | Some user =>
        let s1 := withUsers (<[ws := mkUser (username user) (fieldTeam code) (joined user)]>) s in
        let r := handleJoinTeam clk ws code s1 in
        (r.1, (ws, OAuthResponse true (fieldTeam code) (stamp clk)) :: r.2)
    | None => (s, [])
    end
  else (s, [(ws, OAuthResponse false None (stamp clk))]).

(** [None] is a [TypeError]: raised by [user.username] when the socket has
    no session, or by [push] under an inherited channel name; nothing has
    been mutated at either point. *)
Definition handleChatMessage (clk : Clock) (ws : conn) (text channel : string)
    (s : State) : option (State * list Send) :=
  user ← users s !! ws;
  let msg := ChatMsg (Some (username user)) text (stamp clk) channel (now clk) in
  h ← appendHistory MAX_HISTORY channel msg (messageHistory s);
  let s' := withHistory (λ _, h) s in
  Some (s',
    if bool_decide (channel = "team") && truthy (teamCode user)
    then sendToOpen (clients s') (default [] (teamChannels s' !! teamCode user)) (ORecord msg)
    else if decide (channel = "global") then broadcastMessage msg s'
    else []).

Definition isJoined (s : State) (ws : conn) : bool :=
  match users s !! ws with Some user => joined user | None => false end.

Definition errorReply (clk : Clock) (ws : conn) : list Send :=
  [(ws, OSystem "Error processing your request." (stamp clk))].

(** The ['message'] listener; the [catch] block answers a [TypeError] with
    [errorReply]. *)
Definition onMessage (clk : Clock) (ws : conn) (frame : Frame) (s : State)
    : State * list Send :=
  match frame with
  | Unparsable => (s, errorReply clk ws)
  | Json (UserJoin name) =>
      let username := orDefault name "AnonymousSnake" in
      let s1 := withUsers (<[ws := mkUser username None true]>) s in
      broadcastSystemMessage clk ("[" +:+ username +:+ "] joined the chat.") "global" s1
  | Json (AuthRequest code) =>
      if isJoined s ws then handleAuthRequest clk ws code s else (s, [])
  | Json (JoinTeam code) =>
      if isJoined s ws then handleJoinTeam clk ws code s else (s, [])
  | Json (ChatMessage text channel) =>
      if isJoined s ws then
        match handleChatMessage clk ws text channel s with
        | Some r => r
        | None => (s, errorReply clk ws)
        end
      else (s, [])
  | Json (GetHistory channel) =>
      if isJoined s ws then (s, sendHistory ws channel s) else (s, [])
  | Json OtherType => (s, [])
  end.

(** The ['close'] listener. *)
Definition onClose (clk : Clock) (ws : conn) (s : State) : State * list Send :=
  match users s !! ws with
  | Some user =>
      let r := broadcastSystemMessage clk ("[" +:+ username user +:+ "] left the chat.") "global" s in
      let s2 :=
        if truthy (teamCode user)
        then withTeamChannels (alter (setDelete ws) (teamCode user)) r.1
        else r.1 in
      (withUsers (delete ws) s2, r.2)
  | None => (s, [])
  end.

Definition Event := EventOf Frame.

(** One transport event.  A frame or a close is only ever reported for a
    socket of [wss.clients]; the library has taken a closed socket out of
    [wss.clients] before the ['close'] listener of the program runs. *)
Definition step (e : Event) (s : State) : State * list Send :=
  match e with
  | EConnect =>
      (mkState (S (nextConn s)) (clients s ++ [(nextConn s, OPEN)])
               (users s) (teamChannels s) (messageHistory s), [])
  | EMessage ws frame clk =>
      if decide (ws ∈ (clients s).*1) then onMessage clk ws frame s else (s, [])
  | EClosing ws => (withClients (setReadyState ws CLOSING) s, [])
  | EClose ws clk =>
      if decide (ws ∈ (clients s).*1)
      then onClose clk ws (withClients (removeClient ws) s)
      else (s, [])
  | ESweep t => (withHistory (cleanup MSG_LIFETIME_MS t) s, [])
  end.

Definition run (tr : list Event) (s : State) : State :=
  foldl (λ st e, (step e st).1) s tr.

(** What one event does to [messageHistory]. *)
Inductive HistoryEffect (h : gmap string (list Msg)) : gmap string (list Msg) → Prop :=
| HistSame : HistoryEffect h h
| HistSystem text ts t :
    HistoryEffect h (pushHistory MAX_HISTORY "global" (SysMsg text ts t) h)
| HistChat name text ts ch t :
    HistoryEffect h (pushHistory MAX_HISTORY ch (ChatMsg name text ts ch t) h)
| HistSweep t : HistoryEffect h (cleanup MSG_LIFETIME_MS t h).

End Server.

(** ** src/unnamed/part_002 *)
Module Part002.

Record Credential := mkCredential { code : string; authorKey : string }.

Definition teamCodes : gmap string Credential :=
  <["[REKT]" := mkCredential "REKT" "authorKeyREKT"]>
    (<["[SMT]" := mkCredential "SMT" "authorKeySMT"]> ∅).

Definition MAX_HISTORY : nat := 50.
Definition MSG_LIFETIME_MS : Z := 10 * 60 * 1000.

Record User := mkUser { username : option string; teamCode : option string; joined : bool }.

Record State := mkState {
  nextConn : conn;
  clients : list (conn * ReadyState);
  users : gmap conn User;
  teamChannels : gmap string (list conn);
  messageHistory : gmap string (list Msg)
}.

Definition init : State := mkState 0 [] ∅ ∅
  (<["global" := []]> (<["[REKT]" := []]> (<["[SMT]" := []]> ∅))).

Definition withClients f (s : State) : State :=
  mkState (nextConn s) (f (clients s)) (users s) (teamChannels s) (messageHistory s).
Definition withUsers f (s : State) : State :=
  mkState (nextConn s) (clients s) (f (users s)) (teamChannels s) (messageHistory s).
Definition withTeamChannels f (s : State) : State :=
  mkState (nextConn s) (clients s) (users s) (f (teamChannels s)) (messageHistory s).
Definition withHistory f (s : State) : State :=
  mkState (nextConn s) (clients s) (users s) (teamChannels s) (f (messageHistory s)).

(** A parsed frame, by [data.type].  [teamCode] is a string, [authorKey]
    is absent, [null] or a string, and [channel] is a string or [None]
    when the frame carries none. *)
Inductive Data :=
| UserJoin (username : option string)
| JoinTeam (teamCode : string) (authorKey : Field)
| ChatMessage (text : string) (channel : option string)
| GetHistory (channel : option string)
| OtherType.

Inductive Frame := Unparsable | Json (data : Data).

Definition members (s : State) (code : string) : list conn :=
  default [] (teamChannels s !! code).

(** [users.get(client)?.joined] *)
Definition isJoined (s : State) (ws : conn) : bool :=
  match users s !! ws with Some user => joined user | None => false end.

Definition sendHistory (ws : conn) (channel : string) (s : State) : list Send :=
  [(ws, historyFrame (messageHistory s) channel)].

Definition broadcastMessage (msg : Msg) (s : State) : list Send :=
  (λ client, (client.1, ORecord msg)) <$>
    filter (λ client, client.2 = OPEN ∧ isJoined s client.1 = true) (clients s).

(** [teamChannels.get(code)] is tested for presence, then iterated. *)
Definition sendToTeam (s : State) (code : string) (o : Outbound) : list Send :=
  match teamChannels s !! code with
  | Some teamUsers => sendToOpen (clients s) teamUsers o
  | None => []
  end.

(** Every call in this revision passes the literal "global", under which
    [messageHistory] has a buffer from the start. *)
Definition broadcastSystemMessage (clk : Clock) (text channel : string) (s : State)
    : State * list Send :=
  let msg := SysMsg text (stamp clk) (now clk) in
  let s' := withHistory (pushHistory MAX_HISTORY channel msg) s in
  (s', if decide (channel = "global") then broadcastMessage msg s'
       else sendToTeam s' channel (ORecord msg)).

(** [teamCodes[code]]: an entry of the table, a value that the table
    inherits (truthy, without an [authorKey] or a [code] of its own), or
    nothing. *)
Definition teamEntry (teamCode : string) : option (option Credential) :=
  match teamCodes !! teamCode with
  | Some cred => Some (Some cred)
  | None => if inherited teamCode then Some None else None
  end.

(** [teamCodes[code].authorKey], as a field to compare with [===]. *)
Definition entryKey (entry : option Credential) : Field :=
  match entry with
  | Some cred => Str (authorKey cred)
  | None => Absent
  end.

(** [teamCodes[code].code] inside a template literal. *)
Definition entryLabel (entry : option Credential) : string :=
  match entry with
  | Some cred => code cred
  | None => "undefined"
  end.

(** The Authentication Gate: the test of [handleJoinTeam],
    [teamCodes[code] && teamCodes[code].authorKey === authorKey]. *)
Definition authenticates (teamCode : string) (key : Field) : bool :=
  match teamEntry teamCode with
  | Some entry => bool_decide (entryKey entry = key)
  | None => false
  end.

Definition handleJoinTeam (clk : Clock) (ws : conn) (teamCode : string) (key : Field)
    (s : State) : State * list Send :=
  match users s !! ws with
  | Some user =>
      if joined user then
        match teamEntry teamCode with
        | Some entry =>
            if decide (entryKey entry = key) then
              let s1 := withUsers (<[ws := mkUser (username user) (Some teamCode) (joined user)]>) s in
              let s2 := withTeamChannels (<[teamCode := setAdd ws (members s1 teamCode)]>) s1 in
              (s2, (ws, OSystem ("Joined team channel for " +:+ entryLabel entry) (stamp clk))
                     :: sendHistory ws teamCode s2)
            else (s, [(ws, OSystem "Invalid author key." (stamp clk))])
        | None => (s, [(ws, OSystem "Invalid team code." (stamp clk))])
        end
      else (s, [])
  | None => (s, [])
  end.

(** [None] is a [TypeError]: raised by [user.username] when the socket has
    no session, or by [push] under an inherited channel name; nothing has
    been mutated at either point. *)
Definition handleChatMessage (clk : Clock) (ws : conn) (text channel : string)
    (s : State) : option (State * list Send) :=
  user ← users s !! ws;
  let msg := ChatMsg (username user) text (stamp clk) channel (now clk) in
  h ← appendHistory MAX_HISTORY channel msg (messageHistory s);
  let s' := withHistory (λ _, h) s in
  Some (s',
    if decide (channel = "global") then broadcastMessage msg s'
    else if truthy (teamCode user)
         then sendToTeam s' (default "" (teamCode user)) (ORecord msg)
         else []).

Definition errorReply (clk : Clock) (ws : conn) : list Send :=
  [(ws, OSystem "Error processing your request." (stamp clk))].

(** The ['message'] listener.  An access to a field of a missing session
    raises, as does a [push] under an inherited channel name, and the
    [catch] block answers with [errorReply]. *)
Definition onMessage (clk : Clock) (ws : conn) (frame : Frame) (s : State)
    : State * list Send :=
  match frame with
  | Unparsable => (s, errorReply clk ws)
  | Json (UserJoin name) =>
      match users s !! ws with
      | Some user =>
          let username := orDefault name "AnonymousSnake" in
          let s1 := withUsers (<[ws := mkUser (Some username) (teamCode user) true]>) s in
          let r := broadcastSystemMessage clk
                     ("[" +:+ username +:+ "] joined the chat.") "global" s1 in
          (r.1, r.2 ++ sendHistory ws "global" r.1)
      | None => (s, errorReply clk ws)
      end
  | Json (JoinTeam teamCode key) => handleJoinTeam clk ws teamCode key s
  | Json (ChatMessage text channel) =>
      match users s !! ws with
      | Some user =>
          if joined user then
            match handleChatMessage clk ws text (orDefault channel "global") s with
            | Some r => r
            | None => (s, errorReply clk ws)
            end
          else (s, [])
      | None => (s, errorReply clk ws)
      end
  | Json (GetHistory channel) =>
      match users s !! ws with
      | Some user =>
          if joined user then (s, sendHistory ws (orDefault channel "global") s)
          else (s, [])
      | None => (s, errorReply clk ws)
      end
  | Json OtherType => (s, [(ws, OSystem "Unknown message type." (stamp clk))])
  end.

(** The ['close'] listener. *)
Definition onClose (clk : Clock) (ws : conn) (s : State) : State * list Send :=
  match users s !! ws with
  | Some user =>
      if joined user then
        let r := broadcastSystemMessage clk
                   ("[" +:+ default "null" (username user) +:+ "] left the chat.") "global" s in
        let s2 :=
          if truthy (teamCode user)
          then withTeamChannels (alter (setDelete ws) (default "" (teamCode user))) r.1
          else r.1 in
        (withUsers (delete ws) s2, r.2)
      else (s, [])
  | None => (s, [])
  end.

Definition Event := EventOf Frame.

(** One transport event; the ['connection'] listener registers the session
    in its unjoined state. *)
Definition step (e : Event) (s : State) : State * list Send :=
  match e with
  | EConnect =>
      (mkState (S (nextConn s)) (clients s ++ [(nextConn s, OPEN)])
               (<[nextConn s := mkUser None None false]> (users s))
               (teamChannels s) (messageHistory s), [])
  | EMessage ws frame clk =>
      if decide (ws ∈ (clients s).*1) then onMessage clk ws frame s else (s, [])
  | EClosing ws => (withClients (setReadyState ws CLOSING) s, [])
  | EClose ws clk =>
      if decide (ws ∈ (clients s).*1)
      then onClose clk ws (withClients (removeClient ws) s)
      else (s, [])
  | ESweep t => (withHistory (cleanup MSG_LIFETIME_MS t) s, [])
  end.

Definition run (tr : list Event) (s : State) : State :=
  foldl (λ st e, (step e st).1) s tr.

End Part002.

(** ** Sample data *)

Definition clockAt (t : Z) : Clock := {| now := t; stamp := "10:00:00" |}.

(** A Tuesday morning on [src/server.js]: socket 0 joins as alice and
    authenticates for team REKT, socket 1 connects, socket 2 joins as bob. *)
Definition serverMorning : list Server.Event :=
  [ EConnect;
    EMessage 0 (Server.Json (Server.UserJoin (Some "alice"))) (clockAt 1000);
    EMessage 0 (Server.Json (Server.AuthRequest (Str "[REKT]"))) (clockAt 2000);
    EConnect;
    EConnect;
    EMessage 2 (Server.Json (Server.UserJoin (Some "bob"))) (clockAt 3000);
    EMessage 0 (Server.Json (Server.ChatMessage "rush mid" "team")) (clockAt 4000) ].

Definition serverNoon : Server.State := Server.run serverMorning Server.init.


(** The single-team property of the membership index. *)
Definition atMostOneTeam (s : Server.State) : Prop :=
  ∀ ws t1 t2, ws ∈ Server.members s t1 → ws ∈ Server.members s t2 → t1 = t2.

(** A session of [src/server.js] is consistent when it is joined and, if it
    has a team, [teamCodes[team]] is truthy and the team's set holds the
    socket. *)
Definition sessionsOk (s : Server.State) : Prop :=
  ∀ ws user, Server.users s !! ws = Some user →
    Server.joined user = true ∧
    ∀ t, Server.teamCode user = Some t →
      Server.teamCodeTruthy t = true ∧ ws ∈ Server.members s t.

(** A record sits in the buffer of the channel it names; a system record
    names none and sits in the global buffer. *)
Definition filedUnder (ch : string) (m : Msg) : Prop :=
  match m with
  | ChatMsg _ _ _ c _ => c = ch
  | SysMsg _ _ _ => ch = "global"
  end.

Definition wellFiled (h : gmap string (list Msg)) : Prop :=
  ∀ ch m, m ∈ getHistory h ch → filedUnder ch m.

(** Alice authenticates for a second team. *)
Definition serverSwitch : list Server.Event :=
  serverMorning ++
  [EMessage 0 (Server.Json (Server.AuthRequest (Str "[SMT]"))) (clockAt 6000)].

(** The same morning on [src/unnamed/part_002]: socket 0 joins as alice,
    socket 1 connects and stays silent, socket 2 joins as bob. *)
Definition part002Morning : list Part002.Event :=
  [ EConnect;
    EMessage 0 (Part002.Json (Part002.UserJoin (Some "alice"))) (clockAt 1000);
    EConnect;
    EConnect;
    EMessage 2 (Part002.Json (Part002.UserJoin (Some "bob"))) (clockAt 3000) ].

Definition part002Noon : Part002.State := Part002.run part002Morning Part002.init.

(** Consistency of the sessions of [src/unnamed/part_002]: a joined
    session has a display name, and a session with a team is joined,
    [teamCodes[team]] is truthy and its socket is in that team's set. *)
Definition part002SessionsOk (s : Part002.State) : Prop :=
  ∀ ws user, Part002.users s !! ws = Some user →
    (Part002.joined user = true → is_Some (Part002.username user)) ∧
    ∀ t, Part002.teamCode user = Some t →
      Part002.joined user = true ∧ is_Some (Part002.teamEntry t) ∧
      ws ∈ Part002.members s t.

(** Identifiers in [wss.clients] and in the team sets have been allocated,
    and a socket of [wss.clients] that is in a team set has a joined
    session. *)
Definition part002TeamsOk (s : Part002.State) : Prop :=
  (∀ c, c ∈ (Part002.clients s).*1 → c < Part002.nextConn s) ∧
  (∀ t c, c ∈ Part002.members s t → c < Part002.nextConn s) ∧
  (∀ t c, c ∈ Part002.members s t → c ∈ (Part002.clients s).*1 →
     Part002.isJoined s c = true).

(** A chat record carries the name of its author. *)
Definition named (m : Msg) : Prop :=
  match m with
  | ChatMsg name _ _ _ _ => is_Some name
  | SysMsg _ _ _ => True
  end.

(** Later that day on [src/unnamed/part_002]: alice joins team REKT, bob
    joins team SMT. *)
Definition part002Afternoon : list Part002.Event :=
  part002Morning ++
  [ EMessage 0 (Part002.Json (Part002.JoinTeam "[REKT]" (Str "authorKeyREKT"))) (clockAt 4000);
    EMessage 2 (Part002.Json (Part002.JoinTeam "[SMT]" (Str "authorKeySMT"))) (clockAt 5000) ].

Definition part002Evening : Part002.State := Part002.run part002Afternoon Part002.init.

(** That night bob writes on the channel named after his team. *)
Definition part002Night : Part002.State :=
  (Part002.step
     (EMessage 2 (Part002.Json (Part002.ChatMessage "smt only" (Some "[SMT]"))) (clockAt 6000))
     part002Evening).1.

(** * Properties *)

(** ** The history store *)

Section HistoryStore.
Variable MAX : nat.

Lemma getHistory_push_eq ch m (h : gmap string (list Msg)) :
  getHistory (pushHistory MAX ch m h) ch =
    if decide (MAX < length (getHistory h ch ++ [m]))
    then tail (getHistory h ch ++ [m]) else getHistory h ch ++ [m].
Proof. unfold pushHistory, getHistory at 1. by rewrite lookup_insert_eq. Qed.

Lemma getHistory_push_ne ch ch' m (h : gmap string (list Msg)) :
  ch ≠ ch' → getHistory (pushHistory MAX ch m h) ch' = getHistory h ch'.
Proof. intros Hne. unfold pushHistory, getHistory at 1 3. by rewrite lookup_insert_ne. Qed.

Lemma push_length_bound ch ch' m (h : gmap string (list Msg)) :
  length (getHistory h ch') ≤ MAX →
  length (getHistory (pushHistory MAX ch m h) ch') ≤ MAX.
Proof.
  intros Hb. destruct (decide (ch = ch')) as [->|Hne].
  - rewrite getHistory_push_eq. case_decide as Hlen.
    + rewrite length_tl, length_app. simpl. lia.
    + lia.
  - by rewrite getHistory_push_ne.
Qed.

Lemma tail_snoc (l : list Msg) m : l ≠ [] → tail (l ++ [m]) = tail l ++ [m].
Proof. by destruct l. Qed.

Lemma push_shape ch m (h : gmap string (list Msg)) :
  1 ≤ MAX →
  getHistory (pushHistory MAX ch m h) ch =
    drop (if decide (MAX ≤ length (getHistory h ch)) then 1 else 0) (getHistory h ch) ++ [m].
Proof.
  intros Hmax. rewrite getHistory_push_eq, length_app. simpl.
  destruct (getHistory h ch) as [|x l] eqn:E; simpl.
  - repeat case_decide; try lia. done.
  - repeat case_decide; try lia; simpl; by rewrite ?drop_0.
Qed.

Lemma trimHead_fits fuel (buf : list Msg) :
  length buf ≤ MAX → trimHead MAX fuel buf = buf.
Proof. intros Hb. destruct fuel; simpl; [done|]. case_decide; [lia|done]. Qed.

(** Under the bound, the single [shift] of the code is the loop of the
    specification. *)
Lemma push_is_appendSpec ch m (h : gmap string (list Msg)) :
  length (getHistory h ch) ≤ MAX →
  getHistory (pushHistory MAX ch m h) ch = appendSpec MAX m (getHistory h ch).
Proof.
  intros Hb. rewrite getHistory_push_eq. unfold appendSpec.
  generalize (getHistory h ch ++ [m]) (length_app (getHistory h ch) [m]).
  intros buf Hl. simpl in Hl.
  destruct (length buf) as [|n] eqn:E; [lia|]. simpl. rewrite E.
  case_decide as Hlen; [|done].
  rewrite trimHead_fits; [done|]. rewrite length_tl, E. lia.
Qed.

End HistoryStore.

(** ** Inherited names *)

Lemma inherited_global : inherited "global" = false.
Proof. reflexivity. Qed.

Lemma inherited_team : inherited "team" = false.
Proof. reflexivity. Qed.

Lemma inherited_empty : inherited "" = false.
Proof. reflexivity. Qed.

Lemma appendHistory_plain n ch msg (h : gmap string (list Msg)) :
  inherited ch = false → appendHistory n ch msg h = Some (pushHistory n ch msg h).
Proof. intros Hi. unfold appendHistory, historyRaises. by rewrite Hi, andb_false_r. Qed.

Lemma appendHistory_Some n ch msg (h h' : gmap string (list Msg)) :
  appendHistory n ch msg h = Some h' → h' = pushHistory n ch msg h.
Proof. unfold appendHistory. destruct (historyRaises h ch); congruence. Qed.

Lemma appendHistory_raises n ch msg (h : gmap string (list Msg)) :
  h !! ch = None → inherited ch = true → appendHistory n ch msg h = None.
Proof.
  intros Hn Hi. unfold appendHistory, historyRaises.
  by rewrite Hi, bool_decide_eq_true_2.
Qed.

Lemma historyFrame_plain (h : gmap string (list Msg)) ch :
  inherited ch = false → historyFrame h ch = OHistory (getHistory h ch).
Proof.
  intros Hi. unfold historyFrame, getHistory. rewrite Hi. by destruct (h !! ch).
Qed.


Lemma historyFrame_push n ch msg (h : gmap string (list Msg)) :
  historyFrame (pushHistory n ch msg h) ch
    = OHistory (getHistory (pushHistory n ch msg h) ch).
Proof.
  unfold historyFrame, getHistory, pushHistory. by rewrite lookup_insert_eq.
Qed.

Lemma getHistory_cleanup life t ch (h : gmap string (list Msg)) :
  getHistory (cleanup life t h) ch =
    filter (λ msg, (t - rawTime msg < life)%Z) (getHistory h ch).
Proof.
  unfold cleanup, getHistory. rewrite lookup_fmap.
  by destruct (h !! ch).
Qed.

Lemma cleanup_length_bound MAX life t ch (h : gmap string (list Msg)) :
  length (getHistory h ch) ≤ MAX → length (getHistory (cleanup life t h) ch) ≤ MAX.
Proof.
  intros Hb. rewrite getHistory_cleanup.
  etrans; [apply length_filter|done].
Qed.

(** ** src/server.js: reachable states *)

Module ServerProps.
Import Server.

Lemma run_snoc tr e s : run (tr ++ [e]) s = (step e (run tr s)).1.
Proof. unfold run. by rewrite foldl_app. Qed.

(** Induction over the states reached from [init]. *)
Lemma run_invariant (P : State → Prop) :
  P init → (∀ e s, P s → P (step e s).1) → ∀ tr, P (run tr init).
Proof.
  intros H0 Hstep tr. induction tr as [|e tr IH] using rev_ind; [done|].
  rewrite run_snoc. by apply Hstep.
Qed.

Lemma broadcastSystemMessage_history clk text s :
  messageHistory (broadcastSystemMessage clk text "global" s).1 =
    pushHistory MAX_HISTORY "global" (SysMsg text (stamp clk) (now clk)) (messageHistory s).
Proof. done. Qed.

Lemma handleJoinTeam_history clk ws code s :
  messageHistory (handleJoinTeam clk ws code s).1 = messageHistory s.
Proof. unfold handleJoinTeam. repeat case_match; done. Qed.

Lemma handleAuthRequest_history clk ws code s :
  messageHistory (handleAuthRequest clk ws code s).1 = messageHistory s.
Proof.
  unfold handleAuthRequest. repeat case_match; try done.
  simpl. by rewrite handleJoinTeam_history.
Qed.

Lemma onMessage_history clk ws frame s :
  HistoryEffect (messageHistory s) (messageHistory (onMessage clk ws frame s).1).
Proof.
  destruct frame as [|[name|code|code|text channel|channel|]]; simpl;
    try (case_match; simpl); try by constructor.
  - rewrite handleAuthRequest_history. constructor.
  - rewrite handleJoinTeam_history. constructor.
  - unfold handleChatMessage. destruct (users s !! ws); simpl; [|constructor].
    destruct (appendHistory _ _ _ _) as [h|] eqn:E; simpl; [|constructor].
    apply appendHistory_Some in E as ->. constructor.
Qed.

Lemma onClose_history clk ws s :
  HistoryEffect (messageHistory s) (messageHistory (onClose clk ws s).1).
Proof.
  unfold onClose. destruct (users s !! ws) as [user|]; [|constructor].
  simpl. destruct (truthy (teamCode user)); simpl; constructor.
Qed.

Lemma step_history e s :
  HistoryEffect (messageHistory s) (messageHistory (step e s).1).
Proof.
  destruct e as [|ws frame clk|ws|ws clk|t]; simpl; try by constructor.
  - case_decide; [apply onMessage_history|constructor].
  - case_decide; [|constructor].
    apply (onClose_history clk ws (withClients (removeClient ws) s)).
Qed.

Lemma history_bound_step e s :
  (∀ ch, length (getHistory (messageHistory s) ch) ≤ MAX_HISTORY) →
  ∀ ch, length (getHistory (messageHistory (step e s).1) ch) ≤ MAX_HISTORY.
Proof.
  intros Hb ch. destruct (step_history e s);
    auto using push_length_bound, cleanup_length_bound.
Qed.

Lemma history_bound tr ch :
  length (getHistory (messageHistory (run tr init)) ch) ≤ MAX_HISTORY.
Proof.
  revert ch. apply (run_invariant (λ s, ∀ ch, length (getHistory (messageHistory s) ch) ≤ MAX_HISTORY)).
  - intros ch. unfold getHistory, init. simpl.
    destruct (_ !! ch) as [l|] eqn:E; simpl; [|lia].
    apply lookup_insert_Some in E as [[_ <-]|[_ E]]; [simpl; lia|].
    apply lookup_insert_Some in E as [[_ <-]|[_ E]]; [simpl; lia|].
    apply lookup_insert_Some in E as [[_ <-]|[_ E]]; [simpl; lia|].
    by rewrite lookup_empty in E.
  - apply history_bound_step.
Qed.

(** C6. After any sequence of events of [src/server.js], every channel's
    history buffer holds at most [MAX_HISTORY] records; and in every such
    state the code's append (push, then a single shift when the length
    exceeds [MAX_HISTORY]) yields the buffer that pushing at the tail and
    evicting from the head while the length exceeds [MAX_HISTORY] yields,
    again within the bound. *)
Theorem history_length_invariant :
  ∀ (tr : list Event) (ch : string),
    length (getHistory (messageHistory (run tr init)) ch) ≤ MAX_HISTORY ∧
    ∀ (ch' : string) (msg : Msg),
      getHistory (pushHistory MAX_HISTORY ch' msg (messageHistory (run tr init))) ch'
        = appendSpec MAX_HISTORY msg (getHistory (messageHistory (run tr init)) ch') ∧
      length (getHistory (pushHistory MAX_HISTORY ch' msg (messageHistory (run tr init))) ch)
        ≤ MAX_HISTORY.
Proof.
  intros tr ch. split; [apply history_bound|].
  intros ch' msg. split.
  - apply push_is_appendSpec, history_bound.
  - apply push_length_bound, history_bound.
Qed.


(** ** Sweep, append and read *)

(** C7. One run of the cleanup job at time [t] leaves in every channel
    exactly the records with [t - _rawTime < MSG_LIFETIME_MS], in their
    former order: every survivor is fresh, every record that is gone was
    not, and the new buffer is a sublist of the old one. *)
Theorem sweep_keeps_fresh_in_order :
  ∀ (s : State) (t : Z) (ch : string),
    let old := getHistory (messageHistory s) ch in
    let new := getHistory (messageHistory (step (ESweep t) s).1) ch in
    new = filter (λ msg, (t - rawTime msg < MSG_LIFETIME_MS)%Z) old ∧
    (∀ msg, msg ∈ new → (t - rawTime msg < MSG_LIFETIME_MS)%Z) ∧
    (∀ msg, msg ∈ old → msg ∉ new → ¬ (t - rawTime msg < MSG_LIFETIME_MS)%Z) ∧
    sublist new old.
Proof.
  intros s t ch old new.
  assert (new = filter (λ msg, (t - rawTime msg < MSG_LIFETIME_MS)%Z) old) as Hnew
    by apply getHistory_cleanup.
  split; [done|]. rewrite Hnew. repeat split.
  - intros msg Hin. by apply list_elem_of_filter in Hin as [? _].
  - intros msg Hold Hgone Hfresh. apply Hgone. by apply list_elem_of_filter.
  - apply sublist_filter.
Qed.



(** C3. A joined session that asks for the history of a channel is
    answered, alone, with what [messageHistory] holds under that name:
    the whole buffer when there is one, and otherwise the empty list, or,
    under a name that every object inherits, a frame without a list.
    Neither the session's team nor any membership set is consulted, and
    the state is unchanged. *)
Theorem get_history_any_channel :
  ∀ (s : State) (ws : conn) (clk : Clock) (ch : string),
    isJoined s ws = true →
    onMessage clk ws (Json (GetHistory ch)) s
      = (s, [(ws, match messageHistory s !! ch with
                  | Some buf => OHistory buf
                  | None => if inherited ch then OHistoryInherited ch else OHistory []
                  end)]).
Proof. intros s ws clk ch Hj. simpl. by rewrite Hj. Qed.

(** Bob never authenticated and is in no team set, and reads alice's
    team message. *)
Lemma get_history_any_channel_witness :
  isJoined serverNoon 2 = true ∧
  (teamCode <$> users serverNoon !! 2) = Some None ∧
  teamChannels serverNoon = {[ Some "[REKT]" := [0] ]} ∧
  onMessage (clockAt 5000) 2 (Json (GetHistory "team")) serverNoon
    = (serverNoon,
       [(2, OHistory [ChatMsg (Some "alice") "rush mid" "10:00:00" "team" 4000])]).
Proof.
  split; [by vm_compute|]. split; [by vm_compute|]. split; [by vm_compute|].
  rewrite (get_history_any_channel serverNoon 2 (clockAt 5000) "team"); by vm_compute.
Defined.

(** ** Fan-out on the global channel *)

Lemma broadcastMessage_recipients msg s c o :
  (c, o) ∈ broadcastMessage msg s ↔ o = ORecord msg ∧ (c, OPEN) ∈ clients s.
Proof.
  unfold broadcastMessage. rewrite list_elem_of_fmap. split.
  - intros [[c' r] [[= -> ->] [Hopen Hin]%list_elem_of_filter]].
    simpl in *. by subst.
  - intros [-> Hin]. exists (c, OPEN). split; [done|].
    by apply list_elem_of_filter.
Qed.

(** A chat message on a channel whose name is not inherited: the record
    is stored, then fanned out. *)
Lemma handleChatMessage_plain clk ws user text ch s :
  users s !! ws = Some user →
  inherited ch = false →
  let msg := ChatMsg (Some (username user)) text (stamp clk) ch (now clk) in
  let s' := withHistory (pushHistory MAX_HISTORY ch msg) s in
  handleChatMessage clk ws text ch s =
    Some (s',
      if bool_decide (ch = "team") && truthy (teamCode user)
      then sendToOpen (clients s) (default [] (teamChannels s !! teamCode user)) (ORecord msg)
      else if decide (ch = "global") then broadcastMessage msg s'
      else []).
Proof.
  intros Hu Hi msg s'. unfold handleChatMessage. rewrite Hu. simpl.
  by rewrite appendHistory_plain.
Qed.

(** A chat message under an inherited name that has no buffer: the
    [TypeError] of [push] is answered with the error reply and nothing is
    stored. *)
Lemma chat_under_inherited_name clk ws text ch s :
  isJoined s ws = true →
  inherited ch = true →
  messageHistory s !! ch = None →
  onMessage clk ws (Json (ChatMessage text ch)) s = (s, errorReply clk ws).
Proof.
  intros Hj Hi Hn. simpl. rewrite Hj. unfold handleChatMessage.
  destruct (users s !! ws); simpl; [|done].
  by rewrite appendHistory_raises.
Qed.

(** A global chat message of [src/server.js] goes to every open socket of
    [wss.clients]; the session table is not consulted. *)
Lemma global_chat_recipients s ws user clk text :
  users s !! ws = Some user → joined user = true →
  let msg := ChatMsg (Some (username user)) text (stamp clk) "global" (now clk) in
  ∀ c o, (c, o) ∈ (onMessage clk ws (Json (ChatMessage text "global")) s).2
         ↔ o = ORecord msg ∧ (c, OPEN) ∈ clients s.
Proof.
  intros Hu Hj msg c o. simpl. unfold isJoined.
  rewrite Hu, Hj, (handleChatMessage_plain _ _ _ _ _ _ Hu inherited_global). simpl.
  by rewrite broadcastMessage_recipients.
Qed.

(** C1 on [src/server.js]. Bob, a joined session, sends a chat message on
    the global channel; socket 1 is connected, has never sent [user-join]
    and has no session, and it is sent the chat record all the same. *)
Theorem global_chat_reaches_unjoined_socket :
  let msg := ChatMsg (Some "bob") "hello" "10:00:00" "global" 5000 in
  isJoined serverNoon 2 = true ∧
  users serverNoon !! 1 = None ∧
  isJoined serverNoon 1 = false ∧
  (onMessage (clockAt 5000) 2 (Json (ChatMessage "hello" "global")) serverNoon).2
    = [(0, ORecord msg); (1, ORecord msg); (2, ORecord msg)].
Proof. by vm_compute. Qed.

(** ** Joining twice *)




(** ** Sessions and team sets *)

Lemma elem_of_setAdd (x c : conn) (l : list conn) : x ∈ setAdd c l ↔ x = c ∨ x ∈ l.
Proof.
  unfold setAdd. case_decide as Hin.
  - split; [by right|]. by intros [->|].
  - rewrite elem_of_app, list_elem_of_singleton. tauto.
Qed.

Lemma elem_of_setDelete (x c : conn) (l : list conn) : x ∈ setDelete c l ↔ x ≠ c ∧ x ∈ l.
Proof. unfold setDelete. by rewrite list_elem_of_filter. Qed.

Lemma members_add s key ws x t :
  x ∈ members (withTeamChannels
                 (<[key := setAdd ws (default [] (teamChannels s !! key))]>) s) t
  ↔ x ∈ members s t ∨ (x = ws ∧ key = Some t).
Proof.
  unfold members at 1. simpl. destruct (decide (key = Some t)) as [->|Hne].
  - rewrite lookup_insert_eq. simpl. rewrite elem_of_setAdd. fold (members s t). tauto.
  - rewrite lookup_insert_ne by done. fold (members s t). tauto.
Qed.

Lemma members_remove s key ws x t :
  x ∈ members (withTeamChannels (alter (setDelete ws) key) s) t
  ↔ x ∈ members s t ∧ (key = Some t → x ≠ ws).
Proof.
  unfold members. simpl. destruct (decide (key = Some t)) as [->|Hne].
  - rewrite lookup_alter_eq. destruct (teamChannels s !! Some t); simpl.
    + rewrite elem_of_setDelete. tauto.
    + split; [by intros ?%elem_of_nil|by intros [?%elem_of_nil _]].
  - rewrite lookup_alter_ne by done. tauto.
Qed.

(** A code that passes the test of [handleAuthRequest] is a non-empty
    string: a team of the table or an inherited name. *)
Lemma teamCodeTruthy_nonempty t : teamCodeTruthy t = true → t ≠ "".
Proof. intros H ->. by vm_compute in H. Qed.

Lemma teamCodeTruthy_truthy t : teamCodeTruthy t = true → truthy (Some t) = true.
Proof. intros H%teamCodeTruthy_nonempty. by apply bool_decide_eq_true_2. Qed.

Lemma is_Some_teamCodes t : is_Some (teamCodes !! t) → teamCodeTruthy t = true.
Proof.
  unfold teamCodeTruthy, teamCodes. intros [name Hn]. rewrite Hn.
  apply lookup_insert_Some in Hn as [[<- <-]|[_ Hn]]; [done|].
  apply lookup_insert_Some in Hn as [[<- <-]|[_ Hn]]; [done|].
  by rewrite lookup_empty in Hn.
Qed.

Lemma sameTeam_true team code :
  sameTeam team code = true ↔ code ≠ Absent ∧ team = fieldTeam code.
Proof.
  destruct team as [t|], code as [| |c]; simpl; try (split; [done|by intros [? ?]]).
  rewrite bool_decide_eq_true. split; [by intros ->|by intros [_ [= ->]]].
Qed.

Lemma handleJoinTeam_sessions clk ws code s :
  sessionsOk s → sessionsOk (handleJoinTeam clk ws code s).1.
Proof.
  intros Hok. unfold handleJoinTeam.
  destruct (users s !! ws) as [user|]; [|done].
  destruct (sameTeam (teamCode user) code); [|done].
  intros ws' user' Hu. destruct (Hok ws' user' Hu) as [Hj Ht].
  split; [done|]. intros t Ht'. destruct (Ht t Ht') as [? ?].
  split; [done|]. apply members_add. by left.
Qed.

Lemma handleAuthRequest_state clk ws code user s :
  teamCodeTruthy code = true → users s !! ws = Some user →
  (handleAuthRequest clk ws (Str code) s).1 =
    let s1 := withUsers (<[ws := mkUser (username user) (Some code) (joined user)]>) s in
    withTeamChannels (<[Some code := setAdd ws (members s1 code)]>) s1.
Proof.
  intros Hc Hu. unfold handleAuthRequest. simpl. rewrite Hc, Hu. simpl.
  unfold handleJoinTeam. simpl. rewrite lookup_insert_eq. simpl.
  by rewrite bool_decide_eq_true_2.
Qed.

Lemma handleAuthRequest_fails clk ws code s :
  teamCodeTruthy (fieldKey code) = false →
  handleAuthRequest clk ws code s = (s, [(ws, OAuthResponse false None (stamp clk))]).
Proof. intros Hc. unfold handleAuthRequest. by rewrite Hc. Qed.

Lemma handleAuthRequest_sessions clk ws code s :
  sessionsOk s → sessionsOk (handleAuthRequest clk ws code s).1.
Proof.
  intros Hok.
  destruct (teamCodeTruthy (fieldKey code)) eqn:Hc;
    [|by rewrite handleAuthRequest_fails].
  destruct code as [| |code]; [done|done|]. simpl in Hc.
  destruct (users s !! ws) as [user|] eqn:Hu;
    [|by unfold handleAuthRequest; simpl; rewrite Hc, Hu].
  rewrite (handleAuthRequest_state _ _ _ _ _ Hc Hu). simpl.
  intros ws' user' Hu'. simpl in Hu'.
  apply lookup_insert_Some in Hu' as [[<- <-]|[Hne Hu']]; simpl.
  - split; [by apply (Hok ws user)|]. intros t [= <-].
    split; [done|]. apply (members_add s (Some code)). by right.
  - destruct (Hok ws' user' Hu') as [Hj Ht]. split; [done|].
    intros t Ht'. destruct (Ht t Ht') as [? ?]. split; [done|].
    apply (members_add s (Some code)). by left.
Qed.

Lemma onMessage_sessions clk ws frame s :
  sessionsOk s → sessionsOk (onMessage clk ws frame s).1.
Proof.
  intros Hok.
  destruct frame as [|[name|code|code|text channel|channel|]]; simpl; try done.
  - intros ws' user' Hu'. simpl in Hu'.
    apply lookup_insert_Some in Hu' as [[<- <-]|[Hne Hu']]; simpl; [done|].
    apply (Hok ws' user' Hu').
  - case_match; [by apply handleAuthRequest_sessions|done].
  - case_match; [by apply handleJoinTeam_sessions|done].
  - case_match; [|done]. unfold handleChatMessage.
    destruct (users s !! ws); simpl; [|done].
    by destruct (appendHistory _ _ _ _).
  - by case_match.
Qed.

Lemma onClose_sessions clk ws s :
  sessionsOk s → sessionsOk (onClose clk ws s).1.
Proof.
  intros Hok. unfold onClose.
  destruct (users s !! ws) as [user|] eqn:Hu; [|done]. simpl.
  intros ws' user' Hu'. simpl in Hu'.
  assert (ws ≠ ws' ∧ users s !! ws' = Some user') as [Hne Hs].
  { destruct (truthy (teamCode user)); simpl in Hu';
      by apply lookup_delete_Some in Hu'. }
  destruct (Hok ws' user' Hs) as [Hj Ht]. split; [done|].
  intros t Ht'. destruct (Ht t Ht') as [? Hm]. split; [done|].
  destruct (truthy (teamCode user)); [|exact Hm].
  apply (members_remove (withHistory _ s)). split; [exact Hm|done].
Qed.

Lemma step_sessions e s : sessionsOk s → sessionsOk (step e s).1.
Proof.
  intros Hok. destruct e as [|ws frame clk|ws|ws clk|t]; simpl; try exact Hok.
  - case_decide; [by apply onMessage_sessions|done].
  - case_decide; [|done].
    by apply (onClose_sessions clk ws (withClients (removeClient ws) s)).
Qed.

Lemma reachable_sessions tr : sessionsOk (run tr init).
Proof.
  apply run_invariant; [|apply step_sessions].
  intros ws user Hu. simpl in Hu. by rewrite lookup_empty in Hu.
Qed.

(** C2, as the code has it. In every state reached from the initial one,
    the socket of a session that has a team is in that team's set; a later
    [auth-request] of the same session with any code that passes the test
    of [handleAuthRequest], the code of another team included, replaces
    the session's team and adds the socket to the new team's set, while
    the socket stays in the former team's set. *)
Theorem team_membership_follows_authentication :
  ∀ (tr : list Event) (ws : conn) (user : User) (t : string),
    users (run tr init) !! ws = Some user →
    teamCode user = Some t →
    ws ∈ members (run tr init) t ∧
    ∀ (t' : string) (clk : Clock),
      teamCodeTruthy t' = true →
      let s' := (onMessage clk ws (Json (AuthRequest (Str t'))) (run tr init)).1 in
      (teamCode <$> users s' !! ws) = Some (Some t') ∧
      ws ∈ members s' t' ∧ ws ∈ members s' t.
Proof.
  intros tr ws user t Hu Ht.
  destruct (reachable_sessions tr ws user Hu) as [Hj Hteam].
  destruct (Hteam t Ht) as [Hvalid Hmem].
  split; [done|].
  intros t' clk Hvalid' s'.
  assert (s' = (handleAuthRequest clk ws (Str t') (run tr init)).1) as ->.
  { unfold s'. simpl. unfold isJoined. by rewrite Hu, Hj. }
  rewrite (handleAuthRequest_state _ _ _ _ _ Hvalid' Hu).
  simpl. split; [by rewrite lookup_insert_eq|].
  split; apply (members_add (run tr init) (Some t')); [by right|by left].
Qed.

Lemma team_membership_follows_authentication_witness :
  users (run serverMorning init) !! 0 = Some (mkUser "alice" (Some "[REKT]") true) ∧
  0 ∈ members (run serverMorning init) "[REKT]" ∧
  0 ∈ members (onMessage (clockAt 6000) 0 (Json (AuthRequest (Str "[SMT]")))
                 (run serverMorning init)).1 "[REKT]" ∧
  0 ∈ members (onMessage (clockAt 6000) 0 (Json (AuthRequest (Str "[SMT]")))
                 (run serverMorning init)).1 "[SMT]".
Proof.
  assert (users (run serverMorning init) !! 0 = Some (mkUser "alice" (Some "[REKT]") true))
    as Hu by (by vm_compute).
  split; [exact Hu|].
  destruct (team_membership_follows_authentication serverMorning 0 _ "[REKT]" Hu eq_refl)
    as (Hmem & Hswitch).
  destruct (Hswitch "[SMT]" (clockAt 6000) eq_refl) as (_ & Hnew & Hold).
  by split_and!.
Defined.

(** C2 as stated fails: alice authenticates for REKT and then for SMT;
    her session's team changes from REKT to SMT and her socket is in both
    teams' sets. *)
Lemma two_team_sets_counterexample :
  (teamCode <$> users (run serverMorning init) !! 0) = Some (Some "[REKT]") ∧
  (teamCode <$> users (run serverSwitch init) !! 0) = Some (Some "[SMT]") ∧
  members (run serverSwitch init) "[REKT]" = [0] ∧
  members (run serverSwitch init) "[SMT]" = [0] ∧
  ¬ atMostOneTeam (run serverSwitch init).
Proof.
  assert (members (run serverSwitch init) "[REKT]" = [0]) as Hr by (by vm_compute).
  assert (members (run serverSwitch init) "[SMT]" = [0]) as Hs by (by vm_compute).
  split; [by vm_compute|]. split; [by vm_compute|].
  split; [done|]. split; [done|].
  intros Hone. specialize (Hone 0 "[REKT]" "[SMT]").
  rewrite Hr, Hs in Hone. discriminate Hone; apply list_elem_of_singleton; done.
Qed.

(** ** Which buffer a record lands in *)

Lemma elem_of_tail (l : list Msg) m : m ∈ tail l → m ∈ l.
Proof. destruct l; [done|]. simpl. by apply list_elem_of_further. Qed.

Lemma elem_of_push n ch0 m0 (h : gmap string (list Msg)) ch m :
  m ∈ getHistory (pushHistory n ch0 m0 h) ch →
  m ∈ getHistory h ch ∨ (ch = ch0 ∧ m = m0).
Proof.
  destruct (decide (ch0 = ch)) as [->|Hne].
  - rewrite getHistory_push_eq. intros Hin.
    assert (m ∈ getHistory h ch ++ [m0]) as Hin'
      by (case_decide; [by apply elem_of_tail|done]).
    apply elem_of_app in Hin' as [?|?%list_elem_of_singleton]; auto.
  - rewrite getHistory_push_ne by done. auto.
Qed.

Lemma wellFiled_effect h h' : HistoryEffect h h' → wellFiled h → wellFiled h'.
Proof.
  intros Heff Hok. destruct Heff as [|text ts t|name text ts ch0 t|t]; [done|..];
    intros ch m Hin.
  - apply elem_of_push in Hin as [?|[-> ->]]; [by apply Hok|done].
  - apply elem_of_push in Hin as [?|[-> ->]]; [by apply Hok|done].
  - rewrite getHistory_cleanup in Hin.
    apply list_elem_of_filter in Hin as [_ ?]. by apply Hok.
Qed.

Lemma reachable_wellFiled tr : wellFiled (messageHistory (run tr init)).
Proof.
  apply (run_invariant (λ s, wellFiled (messageHistory s))).
  - intros ch m. unfold getHistory, init. simpl.
    destruct (_ !! ch) as [l|] eqn:E; simpl; [|by intros ?%elem_of_nil].
    apply lookup_insert_Some in E as [[_ <-]|[_ E]]; [by intros ?%elem_of_nil|].
    apply lookup_insert_Some in E as [[_ <-]|[_ E]]; [by intros ?%elem_of_nil|].
    apply lookup_insert_Some in E as [[_ <-]|[_ E]]; [by intros ?%elem_of_nil|].
    by rewrite lookup_empty in E.
  - intros e s. apply wellFiled_effect, step_history.
Qed.

(** C10, as the code has it. A session with a team sends a chat message
    with channel "team": the record is appended to the one buffer keyed
    "team", whatever the sender's team, and no other buffer changes; it is
    sent to the open sockets of the sender's own team set; any joined
    session that then asks for the history of "team" is answered with that
    buffer; and every buffer other than the global one, so the buffers
    keyed "[REKT]" and "[SMT]" too, holds no system record, only chat
    records that name that buffer's key as their channel. *)
Theorem team_chat_shared_buffer :
  ∀ (tr : list Event) (ws : conn) (user : User) (t : string) (clk : Clock) (text : string),
    users (run tr init) !! ws = Some user →
    teamCode user = Some t →
    let s := run tr init in
    let msg := ChatMsg (Some (username user)) text (stamp clk) "team" (now clk) in
    let r := onMessage clk ws (Json (ChatMessage text "team")) s in
    (∃ k, k ≤ 1 ∧
       getHistory (messageHistory r.1) "team"
         = drop k (getHistory (messageHistory s) "team") ++ [msg]) ∧
    (∀ ch, ch ≠ "team" →
       getHistory (messageHistory r.1) ch = getHistory (messageHistory s) ch) ∧
    r.2 = sendToOpen (clients s) (members s t) (ORecord msg) ∧
    (∀ ws' clk', isJoined r.1 ws' = true →
       (onMessage clk' ws' (Json (GetHistory "team")) r.1).2
         = [(ws', OHistory (getHistory (messageHistory r.1) "team"))]) ∧
    (∀ ch m, m ∈ getHistory (messageHistory r.1) ch → filedUnder ch m).
Proof.
  intros tr ws user t clk text Hu Ht s msg r.
  destruct (reachable_sessions tr ws user Hu) as [Hj Hteam].
  destruct (Hteam t Ht) as [Hvalid _].
  pose proof (teamCodeTruthy_truthy t Hvalid) as Htruthy.
  assert (r = (withHistory (pushHistory MAX_HISTORY "team" msg) s,
               sendToOpen (clients s) (members s t) (ORecord msg))) as Hr.
  { unfold r, s. simpl. unfold isJoined.
    rewrite Hu, Hj, (handleChatMessage_plain _ _ _ _ _ _ Hu inherited_team).
    simpl. rewrite Ht, Htruthy. done. }
  rewrite Hr. simpl. split; [|split; [|split; [done|split]]].
  - exists (if decide (MAX_HISTORY ≤ length (getHistory (messageHistory s) "team"))
            then 1 else 0).
    split; [case_decide; lia|]. apply push_shape. unfold MAX_HISTORY. lia.
  - intros ch Hne. by apply getHistory_push_ne.
  - intros ws' clk' Hj'. unfold isJoined in *. simpl in *.
    rewrite Hj'. unfold sendHistory. simpl.
    by rewrite (historyFrame_plain _ _ inherited_team).
  - apply (wellFiled_effect (messageHistory s)); [constructor|].
    apply reachable_wellFiled.
Qed.

Lemma team_chat_shared_buffer_witness :
  users (run serverMorning init) !! 0 = Some (mkUser "alice" (Some "[REKT]") true) ∧
  (onMessage (clockAt 7000) 0 (Json (ChatMessage "push now" "team")) (run serverMorning init)).2
    = sendToOpen (clients (run serverMorning init)) (members (run serverMorning init) "[REKT]")
        (ORecord (ChatMsg (Some "alice") "push now" "10:00:00" "team" 7000)).
Proof.
  assert (users (run serverMorning init) !! 0 = Some (mkUser "alice" (Some "[REKT]") true))
    as Hu by (by vm_compute).
  split; [exact Hu|].
  destruct (team_chat_shared_buffer serverMorning 0 _ "[REKT]" (clockAt 7000) "push now"
              Hu eq_refl) as (_ & _ & Hsend & _).
  exact Hsend.
Defined.

(** C10 as stated fails in one part: bob, who has no team, sends a chat
    message that names "[REKT]" as its channel; it is sent to nobody and
    is stored in the buffer keyed "[REKT]", which then holds a chat
    record and no system record. *)
Lemma team_buffer_counterexample :
  let r := onMessage (clockAt 5000) 2 (Json (ChatMessage "psst" "[REKT]")) serverNoon in
  isJoined serverNoon 2 = true ∧
  r.2 = [] ∧
  getHistory (messageHistory r.1) "[REKT]"
    = [ChatMsg (Some "bob") "psst" "10:00:00" "[REKT]" 5000] ∧
  isSystem <$> getHistory (messageHistory r.1) "[REKT]" = [false].
Proof. by vm_compute. Qed.

(** Bob authenticates for SMT and writes on "team": the buffer keyed
    "team" then holds alice's REKT message and bob's SMT message, and
    bob's message was sent to the SMT set only. *)
Example team_history_mixes_teams :
  let s1 := (onMessage (clockAt 5000) 2 (Json (AuthRequest (Str "[SMT]"))) serverNoon).1 in
  let r := onMessage (clockAt 6000) 2 (Json (ChatMessage "smt here" "team")) s1 in
  r.2 = [(2, ORecord (ChatMsg (Some "bob") "smt here" "10:00:00" "team" 6000))] ∧
  getHistory (messageHistory r.1) "team"
    = [ChatMsg (Some "alice") "rush mid" "10:00:00" "team" 4000;
       ChatMsg (Some "bob") "smt here" "10:00:00" "team" 6000].
Proof. by vm_compute. Qed.

(** Append and read at the level of the handlers: a joined session writes
    on a channel whose name is not inherited and then reads that channel
    back. *)
Lemma chat_then_history s ws user clk clk' text ch :
  users s !! ws = Some user → joined user = true → inherited ch = false →
  let old := getHistory (messageHistory s) ch in
  let msg := ChatMsg (Some (username user)) text (stamp clk) ch (now clk) in
  let r := onMessage clk ws (Json (ChatMessage text ch)) s in
  (onMessage clk' ws (Json (GetHistory ch)) r.1).2
    = [(ws, OHistory (drop (if decide (MAX_HISTORY ≤ length old) then 1 else 0) old ++ [msg]))].
Proof.
  intros Hu Hj Hi old msg r. unfold r. simpl. unfold isJoined.
  rewrite Hu, Hj, (handleChatMessage_plain _ _ _ _ _ _ Hu Hi). simpl.
  rewrite Hu, Hj. unfold sendHistory. simpl.
  rewrite historyFrame_push.
  rewrite (push_shape MAX_HISTORY) by (unfold MAX_HISTORY; lia). done.
Qed.

End ServerProps.

(** ** src/unnamed/part_002 *)

Module Part002Props.
Import Part002.

(** The gate passes for a team of the table with its own author key, and
    for an inherited name when the request carries no author key at all. *)
Lemma authenticates_true teamCode key :
  authenticates teamCode key = true
  ↔ (∃ cred, teamCodes !! teamCode = Some cred ∧ key = Str (authorKey cred))
    ∨ (teamCodes !! teamCode = None ∧ inherited teamCode = true ∧ key = Absent).
Proof.
  unfold authenticates, teamEntry. destruct (teamCodes !! teamCode) as [cred|]; simpl.
  - rewrite bool_decide_eq_true. split.
    + intros <-. left. by exists cred.
    + intros [(? & [= <-] & ->)|(? & _)]; done.
  - destruct (inherited teamCode); simpl.
    + rewrite bool_decide_eq_true. split; [by intros <-; right|].
      intros [(? & ? & _)|(_ & _ & ->)]; done.
    + split; [done|]. intros [(? & ? & _)|(_ & ? & _)]; done.
Qed.

Lemma part002_handleChatMessage_plain clk ws user text ch s :
  users s !! ws = Some user →
  inherited ch = false →
  let msg := ChatMsg (username user) text (stamp clk) ch (now clk) in
  let s' := withHistory (pushHistory MAX_HISTORY ch msg) s in
  handleChatMessage clk ws text ch s =
    Some (s',
      if decide (ch = "global") then broadcastMessage msg s'
      else if truthy (teamCode user)
           then sendToTeam s (default "" (teamCode user)) (ORecord msg)
           else []).
Proof.
  intros Hu Hi msg s'. unfold handleChatMessage. rewrite Hu. simpl.
  by rewrite appendHistory_plain.
Qed.

(** C5, as the code has it. In [src/unnamed/part_002] a joined session
    sends [join-team]. If the gate passes, the session's team becomes the
    code, the socket is added to that team's set, and the requester alone
    is sent a confirmation followed by what [messageHistory] holds under
    the code, the buffer of the team's channel; nothing else changes.
    Otherwise the state is left as it was and the requester alone is sent
    one system message. In [src/server.js] a [join-team] with a string
    code passes when the code is the session's team: the socket is added
    to that team's set and the requester is sent the confirmation; the
    session is not changed and no history is sent. When it does not pass,
    nothing changes and nothing is sent. *)
Theorem join_team_gate :
  (∀ (s : State) (ws : conn) (user : User) (clk : Clock) (teamCode : string) (key : Field),
     users s !! ws = Some user →
     joined user = true →
     let r := onMessage clk ws (Json (JoinTeam teamCode key)) s in
     (authenticates teamCode key = true →
        users r.1 = <[ws := mkUser (username user) (Some teamCode) true]> (users s) ∧
        teamChannels r.1 = <[teamCode := setAdd ws (members s teamCode)]> (teamChannels s) ∧
        ws ∈ members r.1 teamCode ∧
        messageHistory r.1 = messageHistory s ∧
        clients r.1 = clients s ∧
        r.2 = [(ws, OSystem ("Joined team channel for " +:+
                             match teamCodes !! teamCode with
                             | Some cred => code cred
                             | None => "undefined"
                             end) (stamp clk));
               (ws, match messageHistory s !! teamCode with
                    | Some buf => OHistory buf
                    | None => if inherited teamCode then OHistoryInherited teamCode
                              else OHistory []
                    end)]) ∧
     (authenticates teamCode key = false →
        r.1 = s ∧ ∃ text, r.2 = [(ws, OSystem text (stamp clk))])) ∧
  (∀ (s : Server.State) (ws : conn) (user : Server.User) (clk : Clock) (code : string),
     Server.users s !! ws = Some user →
     Server.joined user = true →
     let r := Server.onMessage clk ws (Server.Json (Server.JoinTeam (Str code))) s in
     Server.users r.1 = Server.users s ∧
     Server.messageHistory r.1 = Server.messageHistory s ∧
     (Server.teamCode user = Some code →
        (∀ c t, c ∈ Server.members r.1 t ↔ c ∈ Server.members s t ∨ (c = ws ∧ t = code)) ∧
        r.2 = [(ws, OSystem ("Joined team channel for " +:+ Server.teamLabel code)
                      (stamp clk))]) ∧
     (Server.teamCode user ≠ Some code → r = (s, []))).
Proof.
  split.
  - intros s ws user clk teamCode key Hu Hj r.
    unfold r. simpl. unfold handleJoinTeam, authenticates, teamEntry, sendHistory, historyFrame.
    rewrite Hu, Hj. simpl.
    destruct (teamCodes !! teamCode) as [cred|]; simpl;
      [|destruct (inherited teamCode); simpl]; try case_decide; simpl.
    + split; [|by rewrite bool_decide_eq_true_2]. intros _. split_and!; try done.
      unfold members. simpl. rewrite lookup_insert_eq. simpl.
      apply ServerProps.elem_of_setAdd. by left.
    + split; [by rewrite bool_decide_eq_false_2|]. intros _. eauto.
    + split; [|by rewrite bool_decide_eq_true_2]. intros _. split_and!; try done.
      unfold members. simpl. rewrite lookup_insert_eq. simpl.
      apply ServerProps.elem_of_setAdd. by left.
    + split; [by rewrite bool_decide_eq_false_2|]. intros _. eauto.
    + split; [done|]. intros _. eauto.
  - intros s ws user clk code Hu Hj r. unfold r. simpl.
    unfold Server.isJoined, Server.handleJoinTeam. rewrite Hu, Hj.
    destruct (Server.teamCode user) as [t|] eqn:Ht; simpl;
      [destruct (decide (t = code)) as [->|Hne]|].
    + rewrite bool_decide_eq_true_2 by done. simpl. split_and!; try done.
      intros _. split; [|done]. intros c t.
      rewrite (ServerProps.members_add s (Some code)). split.
      * intros [?|[-> [= ->]]]; auto.
      * intros [?|[-> ->]]; auto.
    + rewrite bool_decide_eq_false_2 by done. simpl. split_and!; try done.
      intros [= ?]. done.
    + split_and!; done.
Qed.

(** On [part002Night] the buffer keyed "[SMT]" holds bob's message; alice
    passes the gate for SMT and is sent that buffer. *)
Lemma join_team_gate_witness :
  users part002Night !! 0 = Some (mkUser (Some "alice") (Some "[REKT]") true) ∧
  authenticates "[SMT]" (Str "authorKeySMT") = true ∧
  (onMessage (clockAt 7000) 0 (Json (JoinTeam "[SMT]" (Str "authorKeySMT"))) part002Night).2
    = [(0, OSystem "Joined team channel for SMT" "10:00:00");
       (0, OHistory [ChatMsg (Some "bob") "smt only" "10:00:00" "[SMT]" 6000])] ∧
  0 ∈ members
        (onMessage (clockAt 7000) 0 (Json (JoinTeam "[SMT]" (Str "authorKeySMT"))) part002Night).1
        "[SMT]" ∧
  Server.users serverNoon !! 0 = Some (Server.mkUser "alice" (Some "[REKT]") true) ∧
  Server.onMessage (clockAt 7000) 0 (Server.Json (Server.JoinTeam (Str "[SMT]"))) serverNoon
    = (serverNoon, []).
Proof.
  assert (users part002Night !! 0 = Some (mkUser (Some "alice") (Some "[REKT]") true)) as Hu
    by (by vm_compute).
  assert (Server.users serverNoon !! 0 = Some (Server.mkUser "alice" (Some "[REKT]") true))
    as Hv by (by vm_compute).
  destruct join_team_gate as [Hpart Hserver].
  destruct (Hpart part002Night 0 _ (clockAt 7000) "[SMT]" (Str "authorKeySMT") Hu eq_refl)
    as [Hok _].
  destruct (Hok eq_refl) as (_ & _ & Hmem & _ & _ & Hsent).
  destruct (Hserver serverNoon 0 _ (clockAt 7000) "[SMT]" Hv eq_refl) as (_ & _ & _ & Hno).
  split_and!; [exact Hu|by vm_compute| |exact Hmem|exact Hv|by apply Hno].
  rewrite Hsent. by vm_compute.
Defined.

(** C5 as stated fails on [src/server.js]: alice, whose team is REKT, sends
    [join-team] for REKT, which passes the test of [handleJoinTeam]; she is
    sent the confirmation and nothing else, although the buffer that holds
    the team chat is not empty, and her session is left as it was. *)
Lemma join_team_server_counterexample :
  let r := Server.onMessage (clockAt 7000) 0 (Server.Json (Server.JoinTeam (Str "[REKT]")))
             serverNoon in
  Server.users serverNoon !! 0 = Some (Server.mkUser "alice" (Some "[REKT]") true) ∧
  getHistory (Server.messageHistory serverNoon) "team"
    = [ChatMsg (Some "alice") "rush mid" "10:00:00" "team" 4000] ∧
  getHistory (Server.messageHistory serverNoon) "[REKT]" = [] ∧
  r.2 = [(0, OSystem "Joined team channel for REKT" "10:00:00")] ∧
  Server.users r.1 = Server.users serverNoon.
Proof. by vm_compute. Qed.

(** C4, as the code has it. In [src/unnamed/part_002] a joined session
    whose [join-team] fails is sent one system message, whose text is
    "Invalid author key." when [teamCodes[teamCode]] is truthy, a team of
    the table or an inherited value, and "Invalid team code." when it is
    not; the state is unchanged. In [src/server.js], which has no author
    key, a joined session whose [auth-request] fails is sent
    [auth-response] with [success: false], and one whose [join-team] fails
    is sent nothing. *)
Theorem join_team_failure_reply :
  (∀ (s : State) (ws : conn) (user : User) (clk : Clock) (teamCode : string) (key : Field),
     users s !! ws = Some user →
     joined user = true →
     authenticates teamCode key = false →
     onMessage clk ws (Json (JoinTeam teamCode key)) s
       = (s, [(ws, OSystem (if bool_decide (is_Some (teamCodes !! teamCode))
                               || inherited teamCode
                            then "Invalid author key." else "Invalid team code.")
                           (stamp clk))])) ∧
  (∀ (s : Server.State) (ws : conn) (user : Server.User) (clk : Clock) (code : Field),
     Server.users s !! ws = Some user →
     Server.joined user = true →
     (Server.teamCodeTruthy (fieldKey code) = false →
        Server.onMessage clk ws (Server.Json (Server.AuthRequest code)) s
          = (s, [(ws, OAuthResponse false None (stamp clk))])) ∧
     (Server.sameTeam (Server.teamCode user) code = false →
        Server.onMessage clk ws (Server.Json (Server.JoinTeam code)) s = (s, []))).
Proof.
  split.
  - intros s ws user clk teamCode key Hu Hj Hfail.
    simpl. unfold handleJoinTeam. unfold authenticates in Hfail. rewrite Hu, Hj.
    unfold teamEntry in *. destruct (teamCodes !! teamCode) as [cred|]; simpl in *.
    + apply bool_decide_eq_false in Hfail. by rewrite decide_False by done.
    + destruct (inherited teamCode); [|done]. simpl in *.
      apply bool_decide_eq_false in Hfail. by rewrite decide_False.
  - intros s ws user clk code Hu Hj. split.
    + intros Hc. simpl. unfold Server.isJoined. rewrite Hu, Hj.
      by apply ServerProps.handleAuthRequest_fails.
    + intros Hne. simpl. unfold Server.isJoined, Server.handleJoinTeam.
      by rewrite Hu, Hj, Hne.
Qed.

Lemma join_team_failure_reply_witness :
  users part002Noon !! 2 = Some (mkUser (Some "bob") None true) ∧
  authenticates "[REKT]" (Str "guess") = false ∧
  onMessage (clockAt 5000) 2 (Json (JoinTeam "[REKT]" (Str "guess"))) part002Noon
    = (part002Noon, [(2, OSystem "Invalid author key." "10:00:00")]) ∧
  authenticates "constructor" (Str "guess") = false ∧
  onMessage (clockAt 5000) 2 (Json (JoinTeam "constructor" (Str "guess"))) part002Noon
    = (part002Noon, [(2, OSystem "Invalid author key." "10:00:00")]) ∧
  Server.onMessage (clockAt 5000) 2 (Server.Json (Server.AuthRequest (Str "[NOPE]"))) serverNoon
    = (serverNoon, [(2, OAuthResponse false None "10:00:00")]).
Proof.
  assert (users part002Noon !! 2 = Some (mkUser (Some "bob") None true)) as Hu
    by (by vm_compute).
  assert (Server.users serverNoon !! 2 = Some (Server.mkUser "bob" None true)) as Hv
    by (by vm_compute).
  destruct join_team_failure_reply as [Hpart Hserver].
  destruct (Hserver serverNoon 2 _ (clockAt 5000) (Str "[NOPE]") Hv eq_refl) as [Hauth _].
  split_and!; [exact Hu|by vm_compute| |by vm_compute| |by apply Hauth].
  - by rewrite (Hpart part002Noon 2 _ (clockAt 5000) "[REKT]" (Str "guess") Hu eq_refl eq_refl).
  - by rewrite (Hpart part002Noon 2 _ (clockAt 5000) "constructor" (Str "guess")
                  Hu eq_refl eq_refl).
Defined.

(** C4 as stated fails: bob's two failing requests, one for a team that
    does not exist and one with a wrong key for a team that does, are
    answered with different texts. *)
Lemma join_team_failure_counterexample :
  let unknownTeam :=
    onMessage (clockAt 5000) 2 (Json (JoinTeam "[NOPE]" (Str "authorKeyREKT"))) part002Noon in
  let wrongKey :=
    onMessage (clockAt 5000) 2 (Json (JoinTeam "[REKT]" (Str "guess"))) part002Noon in
  isJoined part002Noon 2 = true ∧
  authenticates "[NOPE]" (Str "authorKeyREKT") = false ∧
  authenticates "[REKT]" (Str "guess") = false ∧
  unknownTeam.2 = [(2, OSystem "Invalid team code." "10:00:00")] ∧
  wrongKey.2 = [(2, OSystem "Invalid author key." "10:00:00")] ∧
  unknownTeam.2 ≠ wrongKey.2.
Proof. repeat split; by vm_compute. Qed.

(** ** The other claims on this revision *)

(** A global chat message of this revision goes to the open sockets whose
    session is joined, and to those only. *)
Lemma part002_global_chat_recipients s ws user clk text :
  users s !! ws = Some user → joined user = true →
  let msg := ChatMsg (username user) text (stamp clk) "global" (now clk) in
  ∀ c o, (c, o) ∈ (onMessage clk ws (Json (ChatMessage text (Some "global"))) s).2
         ↔ o = ORecord msg ∧ (c, OPEN) ∈ clients s ∧ isJoined s c = true.
Proof.
  intros Hu Hj msg c o. simpl.
  rewrite Hu, Hj, (part002_handleChatMessage_plain _ _ _ _ _ _ Hu inherited_global). simpl.
  unfold broadcastMessage. rewrite list_elem_of_fmap. split.
  - intros [[c' r] [[= -> ->] [[Hopen Hjc] Hin]%list_elem_of_filter]].
    simpl in *. by subst.
  - intros (-> & Hin & Hjc). exists (c, OPEN). split; [done|].
    by apply list_elem_of_filter.
Qed.

Example part002_global_chat_skips_unjoined_socket :
  let msg := ChatMsg (Some "bob") "hello" "10:00:00" "global" 5000 in
  isJoined part002Noon 1 = false ∧
  (onMessage (clockAt 5000) 2 (Json (ChatMessage "hello" (Some "global"))) part002Noon).2
    = [(0, ORecord msg); (2, ORecord msg)].
Proof. by vm_compute. Qed.

(** History reads of this revision check the join flag and nothing else. *)
Lemma part002_history_any_channel s ws user clk channel :
  users s !! ws = Some user → joined user = true →
  onMessage clk ws (Json (GetHistory channel)) s
    = (s, [(ws, historyFrame (messageHistory s) (orDefault channel "global"))]).
Proof. intros Hu Hj. simpl. by rewrite Hu, Hj. Qed.

(** A repeated [user-join] of this revision is announced again, too. *)
Lemma part002_user_join_again s ws user clk name :
  users s !! ws = Some user →
  let n := orDefault name "AnonymousSnake" in
  let notice := SysMsg ("[" +:+ n +:+ "] joined the chat.") (stamp clk) (now clk) in
  let r := onMessage clk ws (Json (UserJoin name)) s in
  users r.1 !! ws = Some (mkUser (Some n) (teamCode user) true) ∧
  last (getHistory (messageHistory r.1) "global") = Some notice ∧
  ((ws, OPEN) ∈ clients s → (ws, ORecord notice) ∈ r.2).
Proof.
  intros Hu n notice r. unfold r. simpl. rewrite Hu. simpl. split; [|split].
  - by rewrite lookup_insert_eq.
  - rewrite (push_shape MAX_HISTORY) by (unfold MAX_HISTORY; lia). apply last_snoc.
  - intros Hopen. apply elem_of_app. left. unfold broadcastMessage.
    apply list_elem_of_fmap. exists (ws, OPEN). split; [done|].
    apply list_elem_of_filter. split; [|done].
    split; [done|]. unfold isJoined. simpl. by rewrite lookup_insert_eq.
Qed.

End Part002Props.

(** ** Sockets, sets of sockets and the sweep *)

Lemma elem_of_removeClient (c : conn) (cl : list (conn * ReadyState)) p :
  p ∈ removeClient c cl ↔ p.1 ≠ c ∧ p ∈ cl.
Proof. unfold removeClient. by rewrite list_elem_of_filter. Qed.

Lemma removeClient_gone (c : conn) (cl : list (conn * ReadyState)) :
  c ∉ (removeClient c cl).*1.
Proof.
  intros [p [-> Hp]]%list_elem_of_fmap.
  by apply elem_of_removeClient in Hp as [? _].
Qed.

Lemma removeClient_others (c x : conn) (cl : list (conn * ReadyState)) :
  x ≠ c → x ∈ cl.*1 → x ∈ (removeClient c cl).*1.
Proof.
  intros Hne [p [-> Hp]]%list_elem_of_fmap. apply list_elem_of_fmap.
  exists p. split; [done|]. by apply elem_of_removeClient.
Qed.

Lemma setReadyState_ids c r (cl : list (conn * ReadyState)) :
  (setReadyState c r cl).*1 = cl.*1.
Proof.
  unfold setReadyState. induction cl as [|p cl IH]; [done|].
  rewrite !fmap_cons, IH. f_equal. by case_decide.
Qed.

Lemma readyStateOf_OPEN (cl : list (conn * ReadyState)) c :
  readyStateOf cl c = OPEN → (c, OPEN) ∈ cl.
Proof.
  unfold readyStateOf. destruct (list_find _ cl) as [[i [c' r]]|] eqn:E; [|done].
  simpl. intros ->. apply list_find_Some in E as (Hl & Hc & _). simpl in Hc. subst.
  by eapply list_elem_of_lookup_2.
Qed.

Lemma readyStateOf_absent (cl : list (conn * ReadyState)) c :
  c ∉ cl.*1 → readyStateOf cl c = CLOSED.
Proof.
  intros Hc. unfold readyStateOf.
  destruct (list_find _ cl) as [[i [c' r]]|] eqn:E; [|done].
  apply list_find_Some in E as (Hl & Hp & _). simpl in Hp. subst.
  exfalso. apply Hc. apply list_elem_of_fmap. exists (c, r).
  split; [done|]. by eapply list_elem_of_lookup_2.
Qed.

Lemma elem_of_sendToOpen (cl : list (conn * ReadyState)) (l : list conn) o c o' :
  (c, o') ∈ sendToOpen cl l o ↔ o' = o ∧ c ∈ l ∧ readyStateOf cl c = OPEN.
Proof.
  unfold sendToOpen. rewrite list_elem_of_fmap. split.
  - intros [x [[= -> ->] [? ?]%list_elem_of_filter]]. done.
  - intros (-> & Hin & Hopen). exists c. split; [done|].
    by apply list_elem_of_filter.
Qed.

Lemma NoDup_sendToOpen (cl : list (conn * ReadyState)) (l : list conn) o :
  NoDup l → NoDup (sendToOpen cl l o).
Proof.
  intros Hl. unfold sendToOpen. apply NoDup_fmap_2; [|by apply NoDup_filter].
  by intros x y [= ->].
Qed.

Lemma NoDup_setAdd c (l : list conn) : NoDup l → NoDup (setAdd c l).
Proof.
  intros Hl. unfold setAdd. case_decide as Hin; [done|].
  apply NoDup_app. split; [done|]. split; [|apply NoDup_singleton].
  intros x Hx ->%list_elem_of_singleton. done.
Qed.

Lemma NoDup_setDelete c (l : list conn) : NoDup l → NoDup (setDelete c l).
Proof. intros Hl. unfold setDelete. by apply NoDup_filter. Qed.

(** X1. A sweep at time [t'] makes an earlier sweep, at [t ≤ t'],
    redundant: running both leaves every buffer as the later one alone
    does. In particular a sweep repeated at the same time changes nothing
    more. *)
Theorem sweep_absorbs_earlier_sweep :
  ∀ (life t t' : Z) (h : gmap string (list Msg)),
    (t ≤ t')%Z →
    cleanup life t' (cleanup life t h) = cleanup life t' h ∧
    cleanup life t (cleanup life t h) = cleanup life t h ∧
    dom (cleanup life t h) = dom h.
Proof.
  intros life t t' h Hle. unfold cleanup. rewrite <- !map_fmap_compose.
  split; [|split].
  - apply map_fmap_ext. intros ch buf _. simpl.
    apply list_filter_filter_l. intros msg Hfresh. lia.
  - apply map_fmap_ext. intros ch buf _. simpl.
    by apply list_filter_filter_l.
  - apply dom_fmap_L.
Qed.

Lemma sweep_absorbs_earlier_sweep_witness :
  (1000 ≤ 2000000)%Z ∧
  cleanup Server.MSG_LIFETIME_MS 2000000
    (cleanup Server.MSG_LIFETIME_MS 1000 (Server.messageHistory serverNoon))
  = cleanup Server.MSG_LIFETIME_MS 2000000 (Server.messageHistory serverNoon).
Proof.
  split; [lia|].
  apply (sweep_absorbs_earlier_sweep Server.MSG_LIFETIME_MS 1000 2000000). lia.
Defined.

(** ** src/server.js: the rest of the listeners *)

Module ServerMore.
Import Server ServerProps.

Lemma members_withUsers f s t : members (withUsers f s) t = members s t.
Proof. done. Qed.

Lemma close_step s ws clk :
  ws ∈ (clients s).*1 →
  step (EClose ws clk) s = onClose clk ws (withClients (removeClient ws) s).
Proof. intros Hin. simpl. by rewrite decide_True. Qed.



(** X3. A close takes the socket out of the set of the session's current
    team only. If the socket is also in the set of a team that is not the
    session's current one, it stays in that set after the close; being
    closed, it is sent nothing when that set is iterated. *)
Theorem close_leaves_other_teams :
  ∀ (s : State) (ws : conn) (clk : Clock) (t : string),
    ws ∈ members s t →
    (∀ user, users s !! ws = Some user → teamCode user ≠ Some t) →
    let r := step (EClose ws clk) s in
    ws ∈ members r.1 t ∧
    (ws ∈ (clients s).*1 →
       ∀ o p, p ∈ sendToOpen (clients r.1) (members r.1 t) o → p.1 ≠ ws).
Proof.
  intros s ws clk t Hm Hteam r.
  destruct (decide (ws ∈ (clients s).*1)) as [Hin|Hout].
  - unfold r. rewrite close_step by done. unfold onClose. simpl.
    destruct (users s !! ws) as [user|] eqn:Hu; simpl.
    + destruct (truthy (teamCode user)) eqn:Htr; simpl.
      * split.
        -- rewrite members_withUsers. apply members_remove. split; [done|].
           intros Ht. by destruct (Hteam user eq_refl).
        -- intros _ o [c o'] [_ [_ Hopen]]%elem_of_sendToOpen. simpl. intros ->.
           by rewrite (readyStateOf_absent _ _ (removeClient_gone ws (clients s))) in Hopen.
      * split; [done|].
        intros _ o [c o'] [_ [_ Hopen]]%elem_of_sendToOpen. simpl. intros ->.
        by rewrite (readyStateOf_absent _ _ (removeClient_gone ws (clients s))) in Hopen.
    + split; [done|]. intros _ o [c o'] [_ [_ Hopen]]%elem_of_sendToOpen. simpl. intros ->.
      by rewrite (readyStateOf_absent _ _ (removeClient_gone ws (clients s))) in Hopen.
  - split; [|done]. unfold r. simpl. by rewrite decide_False.
Qed.

Lemma close_leaves_other_teams_witness :
  0 ∈ members (run serverSwitch init) "[REKT]" ∧
  0 ∈ members (step (EClose 0 (clockAt 9000)) (run serverSwitch init)).1 "[REKT]".
Proof.
  assert (0 ∈ members (run serverSwitch init) "[REKT]") as Hm
    by (vm_compute; apply list_elem_of_here).
  split; [exact Hm|].
  apply (close_leaves_other_teams (run serverSwitch init) 0 (clockAt 9000) "[REKT]" Hm).
  intros user Hu. vm_compute in Hu. injection Hu as <-. simpl. congruence.
Defined.

(** X4. In every state reached from the initial one, a [join-team] frame
    leaves the sessions, [wss.clients], the history and every team set
    keyed by a string as they were. With a string code the whole state is
    unchanged, [auth-request] having already put the socket into the set
    it names, and the requester is sent the confirmation once more when
    the code is its session's team, and nothing otherwise. With [null] as
    code the test passes for a session that has no team: the socket is
    added to a set keyed by [null] and the confirmation names "undefined".
    Without a code nothing happens. *)
Theorem join_team_changes_nothing :
  ∀ (tr : list Event) (ws : conn) (code : Field) (clk : Clock),
    let s := run tr init in
    let r := onMessage clk ws (Json (JoinTeam code)) s in
    users r.1 = users s ∧
    clients r.1 = clients s ∧
    messageHistory r.1 = messageHistory s ∧
    (∀ t, members r.1 t = members s t) ∧
    match code with
    | Str c =>
        r = (s, if decide ((teamCode <$> users s !! ws) = Some (Some c))
                then [(ws, OSystem ("Joined team channel for " +:+ teamLabel c) (stamp clk))]
                else [])
    | Null =>
        if decide ((teamCode <$> users s !! ws) = Some None)
        then teamChannels r.1
               = <[None := setAdd ws (default [] (teamChannels s !! None))]> (teamChannels s) ∧
             r.2 = [(ws, OSystem "Joined team channel for undefined" (stamp clk))]
        else r = (s, [])
    | Absent => r = (s, [])
    end.
Proof.
  intros tr ws code clk s r. unfold r. simpl. unfold isJoined, handleJoinTeam.
  destruct (users s !! ws) as [user|] eqn:Hu; simpl;
    [|by destruct code; split_and!; try done; rewrite decide_False].
  destruct (reachable_sessions tr ws user Hu) as [Hj Hteam]. rewrite Hj.
  destruct code as [| |c]; simpl.
  - by destruct (teamCode user).
  - destruct (teamCode user) as [t|] eqn:Ht; simpl.
    + by split_and!.
    + split_and!; try done.
      intros t. unfold members. simpl. by rewrite lookup_insert_ne.
  - destruct (teamCode user) as [t|] eqn:Ht; simpl;
      [destruct (decide (t = c)) as [->|Hne]|].
    + rewrite bool_decide_eq_true_2 by done. simpl.
      destruct (Hteam c eq_refl) as [_ Hm]. fold s in Hm.
      assert (teamChannels s !! Some c = Some (members s c)) as Hl.
      { unfold members in *. destruct (teamChannels s !! Some c); [done|].
        by apply elem_of_nil in Hm. }
      assert (withTeamChannels
                <[Some c := setAdd ws (default [] (teamChannels s !! Some c))]> s = s) as Hs.
      { rewrite Hl. simpl. unfold setAdd. rewrite decide_True by done.
        unfold withTeamChannels. rewrite insert_id by done. by destruct s. }
      rewrite Hs, decide_True by done. done.
    + rewrite bool_decide_eq_false_2 by done. split_and!; try done.
      rewrite decide_False; [done|]. by intros [= ?].
    + by split_and!.
Qed.

(** X5. A joined session sends [auth-request]. When [teamCodes[code]] is
    truthy, for a team of the table and for a name that every object
    inherits, the session's team becomes the code, the socket is put into
    the set of that code, and the requester is sent [auth-response] with
    [success: true] and the code, and then the confirmation, which names
    the team or prints the inherited value. For any other string, for
    [null] and without a code, it is sent [auth-response] with
    [success: false] and the state is unchanged. Nobody else is sent
    anything. *)
Theorem auth_request_replies :
  ∀ (s : State) (ws : conn) (user : User) (clk : Clock) (code : Field),
    users s !! ws = Some user →
    joined user = true →
    let r := onMessage clk ws (Json (AuthRequest code)) s in
    let granted (c label : string) :=
      users r.1 = <[ws := mkUser (username user) (Some c) true]> (users s) ∧
      (∀ x t, x ∈ members r.1 t ↔ x ∈ members s t ∨ (x = ws ∧ t = c)) ∧
      r.2 = [(ws, OAuthResponse true (Some c) (stamp clk));
             (ws, OSystem ("Joined team channel for " +:+ label) (stamp clk))] in
    let refused := r = (s, [(ws, OAuthResponse false None (stamp clk))]) in
    match code with
    | Str c =>
        match teamCodes !! c with
        | Some name => granted c name
        | None => if inherited c then granted c (inheritedText c) else refused
        end
    | Null | Absent => refused
    end.
Proof.
  intros s ws user clk code Hu Hj r granted refused.
  assert (teamCodeTruthy (fieldKey code) = false → refused) as Hrefused.
  { intros Hf. unfold refused, r, onMessage, isJoined. rewrite Hu, Hj.
    by apply handleAuthRequest_fails. }
  destruct code as [| |c]; try (by apply Hrefused).
  assert (teamCodeTruthy c = true → granted c (teamLabel c)) as Hgranted.
  { intros Hc. unfold granted, r, onMessage, isJoined. rewrite Hu, Hj.
    split_and!.
    - by rewrite (handleAuthRequest_state _ _ _ _ _ Hc Hu), Hj.
    - intros x t. rewrite (handleAuthRequest_state _ _ _ _ _ Hc Hu).
      etrans; [apply (members_add _ (Some c))|]. rewrite members_withUsers. split.
      + intros [?|[-> [= ->]]]; auto.
      + intros [?|[-> ->]]; auto.
    - unfold handleAuthRequest. simpl. rewrite Hc, Hu. simpl.
      unfold handleJoinTeam. simpl. rewrite lookup_insert_eq. simpl.
      by rewrite bool_decide_eq_true_2. }
  destruct (teamCodes !! c) as [name|] eqn:Hc.
  - pose proof (Hgranted (is_Some_teamCodes c (ex_intro _ name Hc))) as Hg.
    unfold teamLabel in Hg. by rewrite Hc in Hg.
  - destruct (inherited c) eqn:Hi.
    + assert (teamCodeTruthy c = true) as Ht by (unfold teamCodeTruthy; by rewrite Hc).
      pose proof (Hgranted Ht) as Hg. unfold teamLabel in Hg. by rewrite Hc, Hi in Hg.
    + apply Hrefused. simpl. unfold teamCodeTruthy. by rewrite Hc.
Qed.

Lemma auth_request_replies_witness :
  users serverNoon !! 2 = Some (mkUser "bob" None true) ∧
  (onMessage (clockAt 5000) 2 (Json (AuthRequest (Str "[SMT]"))) serverNoon).2
    = [(2, OAuthResponse true (Some "[SMT]") "10:00:00");
       (2, OSystem "Joined team channel for SMT" "10:00:00")] ∧
  (onMessage (clockAt 5000) 2 (Json (AuthRequest (Str "constructor"))) serverNoon).2
    = [(2, OAuthResponse true (Some "constructor") "10:00:00");
       (2, OSystem "Joined team channel for function Object() { [native code] }" "10:00:00")] ∧
  2 ∈ members (onMessage (clockAt 5000) 2 (Json (AuthRequest (Str "constructor"))) serverNoon).1
        "constructor" ∧
  onMessage (clockAt 5000) 2 (Json (AuthRequest Null)) serverNoon
    = (serverNoon, [(2, OAuthResponse false None "10:00:00")]).
Proof.
  assert (users serverNoon !! 2 = Some (mkUser "bob" None true)) as Hu by (by vm_compute).
  pose proof (auth_request_replies serverNoon 2 _ (clockAt 5000) (Str "[SMT]") Hu eq_refl)
    as (_ & _ & Hsmt).
  pose proof (auth_request_replies serverNoon 2 _ (clockAt 5000) (Str "constructor") Hu eq_refl)
    as (_ & Hmem & Hctor).
  pose proof (auth_request_replies serverNoon 2 _ (clockAt 5000) Null Hu eq_refl) as Hnull.
  split_and!; [exact Hu|exact Hsmt|exact Hctor| |exact Hnull].
  apply Hmem. by right.
Defined.

(** X6. A joined session sends a chat message that the fan-out delivers to
    nobody: its channel is neither "global" nor "team", or it is "team" and
    the session has no team. When the channel is not an inherited name, the
    record is stored all the same, at the tail of the buffer keyed by that
    channel, and a history read of that channel made right after it finds
    it at the tail of the reply. When the channel is an inherited name
    without a buffer, the append raises: the sender is sent the error
    notice and the state is unchanged. *)
Theorem undelivered_chat_is_stored :
  ∀ (s : State) (ws : conn) (user : User) (clk : Clock) (text ch : string),
    users s !! ws = Some user →
    joined user = true →
    ch ≠ "global" →
    ch ≠ "team" ∨ teamCode user = None →
    let msg := ChatMsg (Some (username user)) text (stamp clk) ch (now clk) in
    let r := onMessage clk ws (Json (ChatMessage text ch)) s in
    (inherited ch = false →
       r.2 = [] ∧
       last (getHistory (messageHistory r.1) ch) = Some msg ∧
       ∀ ws' clk', isJoined r.1 ws' = true →
         ∃ older, (onMessage clk' ws' (Json (GetHistory ch)) r.1).2
                    = [(ws', OHistory (older ++ [msg]))]) ∧
    (inherited ch = true → messageHistory s !! ch = None →
       r = (s, [(ws, OSystem "Error processing your request." (stamp clk))])).
Proof.
  intros s ws user clk text ch Hu Hj Hg Hteam msg r. split.
  - intros Hi.
    assert (r = (withHistory (pushHistory MAX_HISTORY ch msg) s, [])) as ->.
    { unfold r. simpl. unfold isJoined. rewrite Hu, Hj.
      rewrite (handleChatMessage_plain _ _ _ _ _ _ Hu Hi). simpl.
      f_equal. rewrite (decide_False (P := ch = "global")) by done.
      destruct Hteam as [Hne| ->]; [by rewrite bool_decide_eq_false_2|].
      by rewrite andb_false_r. }
    simpl. split; [done|].
    rewrite (push_shape MAX_HISTORY) by (unfold MAX_HISTORY; lia).
    split; [apply last_snoc|].
    intros ws' clk' Hj'. unfold isJoined in *. simpl in *. rewrite Hj'.
    unfold sendHistory. simpl. rewrite historyFrame_push.
    rewrite (push_shape MAX_HISTORY) by (unfold MAX_HISTORY; lia). by eexists.
  - intros Hi Hn. unfold r. apply chat_under_inherited_name; [|done|done].
    unfold isJoined. by rewrite Hu.
Qed.

Lemma undelivered_chat_is_stored_witness :
  users serverNoon !! 2 = Some (mkUser "bob" None true) ∧
  (onMessage (clockAt 5000) 2 (Json (ChatMessage "anyone?" "team")) serverNoon).2 = [] ∧
  last (getHistory
          (messageHistory (onMessage (clockAt 5000) 2 (Json (ChatMessage "anyone?" "team")) serverNoon).1)
          "team")
    = Some (ChatMsg (Some "bob") "anyone?" "10:00:00" "team" 5000) ∧
  onMessage (clockAt 5000) 2 (Json (ChatMessage "anyone?" "toString")) serverNoon
    = (serverNoon, [(2, OSystem "Error processing your request." "10:00:00")]).
Proof.
  assert (users serverNoon !! 2 = Some (mkUser "bob" None true)) as Hu by (by vm_compute).
  split; [exact Hu|].
  destruct (undelivered_chat_is_stored serverNoon 2 _ (clockAt 5000) "anyone?" "team"
              Hu eq_refl) as [Hplain _]; [done|by right|].
  destruct (Hplain eq_refl) as (Hsent & Hlast & _).
  destruct (undelivered_chat_is_stored serverNoon 2 _ (clockAt 5000) "anyone?" "toString"
              Hu eq_refl) as [_ Hraises]; [done|by left|].
  split_and!; [exact Hsent|exact Hlast|by apply Hraises].
Defined.

(** X9. A [user-join] frame always leaves the session without a team and
    never touches a team set. A socket that was in a team set is still in
    it afterwards, while a "team" message of its own now reaches nobody. *)
Theorem rejoin_resets_team :
  ∀ (s : State) (ws : conn) (clk : Clock) (name : option string) (t : string),
    ws ∈ members s t →
    let s1 := (onMessage clk ws (Json (UserJoin name)) s).1 in
    (teamCode <$> users s1 !! ws) = Some None ∧
    teamChannels s1 = teamChannels s ∧
    ws ∈ members s1 t ∧
    ∀ clk' text, (onMessage clk' ws (Json (ChatMessage text "team")) s1).2 = [].
Proof.
  intros s ws clk name t Hm s1. unfold s1. simpl. split_and!; try done.
  - by rewrite lookup_insert_eq.
  - intros clk' text. unfold isJoined, handleChatMessage. simpl.
    rewrite lookup_insert_eq. simpl. by rewrite (appendHistory_plain _ _ _ _ inherited_team).
Qed.

Lemma rejoin_resets_team_witness :
  0 ∈ members serverNoon "[REKT]" ∧
  0 ∈ members (onMessage (clockAt 5000) 0 (Json (UserJoin (Some "alicia"))) serverNoon).1 "[REKT]" ∧
  (teamCode <$> users (onMessage (clockAt 5000) 0 (Json (UserJoin (Some "alicia"))) serverNoon).1 !! 0)
    = Some None.
Proof.
  assert (0 ∈ members serverNoon "[REKT]") as Hm by (vm_compute; apply list_elem_of_here).
  split; [exact Hm|].
  destruct (rejoin_resets_team serverNoon 0 (clockAt 5000) (Some "alicia") "[REKT]" Hm)
    as (Hteam & _ & Hstill & _).
  by split.
Defined.

(** What the listeners do to [wss.clients], to the sessions of the other
    sockets and to the team sets. *)
Lemma handleJoinTeam_frame clk ws code s :
  clients (handleJoinTeam clk ws code s).1 = clients s ∧
  users (handleJoinTeam clk ws code s).1 = users s ∧
  ∀ t, members (handleJoinTeam clk ws code s).1 t = members s t ∨
       members (handleJoinTeam clk ws code s).1 t = setAdd ws (members s t).
Proof.
  unfold handleJoinTeam. destruct (users s !! ws) as [user|]; [|by auto].
  destruct (sameTeam (teamCode user) code); [|by auto]. simpl.
  split_and!; [done|done|]. intros t.
  destruct (decide (teamCode user = Some t)) as [->|Hne].
  - right. unfold members at 1. simpl. by rewrite lookup_insert_eq.
  - left. unfold members at 1. simpl. by rewrite lookup_insert_ne.
Qed.

Lemma handleAuthRequest_frame clk ws code s :
  clients (handleAuthRequest clk ws code s).1 = clients s ∧
  (∀ c, c ≠ ws → users (handleAuthRequest clk ws code s).1 !! c = users s !! c) ∧
  (is_Some (users (handleAuthRequest clk ws code s).1 !! ws) → is_Some (users s !! ws)) ∧
  ∀ t, members (handleAuthRequest clk ws code s).1 t = members s t ∨
       members (handleAuthRequest clk ws code s).1 t = setAdd ws (members s t).
Proof.
  unfold handleAuthRequest. destruct (teamCodeTruthy (fieldKey code)); [|by auto].
  destruct (users s !! ws) as [user|] eqn:Hu; [|by simpl; rewrite Hu; auto]. simpl.
  destruct (handleJoinTeam_frame clk ws code
              (withUsers (<[ws := mkUser (username user) (fieldTeam code) (joined user)]>) s))
    as (Hc & Hus & Hm).
  rewrite Hc, Hus. simpl. split_and!; [done| |by eauto|exact Hm].
  intros c Hne. by rewrite lookup_insert_ne.
Qed.

Lemma onMessage_frame clk ws frame s :
  clients (onMessage clk ws frame s).1 = clients s ∧
  (∀ c, c ≠ ws → users (onMessage clk ws frame s).1 !! c = users s !! c) ∧
  ∀ t, members (onMessage clk ws frame s).1 t = members s t ∨
       members (onMessage clk ws frame s).1 t = setAdd ws (members s t).
Proof.
  destruct frame as [|[name|code|code|text channel|channel|]]; simpl; try by auto.
  - split_and!; [done| |by auto]. intros c Hne. by rewrite lookup_insert_ne.
  - destruct (isJoined s ws); [|by auto].
    destruct (handleAuthRequest_frame clk ws code s) as (? & ? & _ & ?). done.
  - destruct (isJoined s ws); [|by auto].
    destruct (handleJoinTeam_frame clk ws code s) as (? & -> & ?). done.
  - destruct (isJoined s ws); [|by auto]. unfold handleChatMessage.
    destruct (users s !! ws); simpl; [|by auto].
    destruct (appendHistory _ _ _ _); simpl; by auto.
  - destruct (isJoined s ws); by auto.
Qed.

Lemma onClose_frame clk ws s :
  clients (onClose clk ws s).1 = clients s ∧
  (∀ c, c ≠ ws → users (onClose clk ws s).1 !! c = users s !! c) ∧
  users (onClose clk ws s).1 !! ws = None ∧
  ∀ t, members (onClose clk ws s).1 t = members s t ∨
       members (onClose clk ws s).1 t = setDelete ws (members s t).
Proof.
  unfold onClose. destruct (users s !! ws) as [user|] eqn:Hu; [|by auto]. simpl.
  destruct (truthy (teamCode user)); simpl.
  - split_and!; [done| |by rewrite lookup_delete_eq|].
    + intros c Hne. by rewrite lookup_delete_ne.
    + intros t. destruct (decide (teamCode user = Some t)) as [->|Hne].
      * right. unfold members. simpl. rewrite lookup_alter_eq.
        by destruct (teamChannels s !! _).
      * left. unfold members. simpl. by rewrite lookup_alter_ne.
  - split_and!; [done| |by rewrite lookup_delete_eq|by auto].
    intros c Hne. by rewrite lookup_delete_ne.
Qed.

Lemma step_teams e s t :
  members (step e s).1 t = members s t ∨
  (∃ ws, members (step e s).1 t = setAdd ws (members s t)) ∨
  (∃ ws, members (step e s).1 t = setDelete ws (members s t)).
Proof.
  destruct e as [|ws frame clk|ws|ws clk|t']; simpl; try by auto.
  - case_decide; [|by auto].
    destruct (onMessage_frame clk ws frame s) as (_ & _ & Hm).
    destruct (Hm t) as [->| ->]; eauto.
  - case_decide; [|by auto].
    destruct (onClose_frame clk ws (withClients (removeClient ws) s)) as (_ & _ & _ & Hm).
    destruct (Hm t) as [->| ->]; eauto.
Qed.

Lemma reachable_teams_NoDup tr t : NoDup (members (run tr init) t).
Proof.
  revert t. apply (run_invariant (λ s, ∀ t, NoDup (members s t))).
  - intros t. unfold members. simpl. rewrite lookup_empty. apply NoDup_nil_2.
  - intros e s Hs t. destruct (step_teams e s t) as [->|[[ws ->]|[ws ->]]];
      auto using NoDup_setAdd, NoDup_setDelete.
Qed.

(** X7. In every state reached from the initial one, a "team" message of a
    session with team [t] is sent to exactly the sockets of [t]'s set that
    are open, once each; the sender is among them when its own socket is
    open. *)
Theorem team_chat_recipients :
  ∀ (tr : list Event) (ws : conn) (user : User) (t : string) (clk : Clock) (text : string),
    users (run tr init) !! ws = Some user →
    teamCode user = Some t →
    let s := run tr init in
    let msg := ChatMsg (Some (username user)) text (stamp clk) "team" (now clk) in
    let r := onMessage clk ws (Json (ChatMessage text "team")) s in
    (∀ c o, (c, o) ∈ r.2 ↔ o = ORecord msg ∧ c ∈ members s t ∧ readyStateOf (clients s) c = OPEN) ∧
    NoDup r.2 ∧
    (readyStateOf (clients s) ws = OPEN → (ws, ORecord msg) ∈ r.2).
Proof.
  intros tr ws user t clk text Hu Ht s msg r.
  destruct (reachable_sessions tr ws user Hu) as [Hj Hteam].
  destruct (Hteam t Ht) as [Hvalid Hm].
  pose proof (teamCodeTruthy_truthy t Hvalid) as Htruthy.
  assert (r.2 = sendToOpen (clients s) (members s t) (ORecord msg)) as ->.
  { unfold r, s. simpl. unfold isJoined. rewrite Hu, Hj.
    rewrite (handleChatMessage_plain _ _ _ _ _ _ Hu inherited_team). simpl.
    by rewrite Ht, Htruthy. }
  split_and!.
  - intros c o. apply elem_of_sendToOpen.
  - apply NoDup_sendToOpen, reachable_teams_NoDup.
  - intros Hopen. by apply elem_of_sendToOpen.
Qed.

Lemma team_chat_recipients_witness :
  users (run serverMorning init) !! 0 = Some (mkUser "alice" (Some "[REKT]") true) ∧
  NoDup (onMessage (clockAt 7000) 0 (Json (ChatMessage "push now" "team"))
           (run serverMorning init)).2.
Proof.
  assert (users (run serverMorning init) !! 0 = Some (mkUser "alice" (Some "[REKT]") true))
    as Hu by (by vm_compute).
  split; [exact Hu|].
  apply (team_chat_recipients serverMorning 0 _ "[REKT]" (clockAt 7000) "push now" Hu eq_refl).
Defined.

(** X8. In every state reached from the initial one, a socket that has a
    session is in [wss.clients]: the session table holds no entry for a
    socket that has closed. *)
Theorem sessions_are_connected :
  ∀ (tr : list Event) (ws : conn),
    is_Some (users (run tr init) !! ws) → ws ∈ (clients (run tr init)).*1.
Proof.
  intros tr.
  apply (run_invariant (λ s, ∀ ws, is_Some (users s !! ws) → ws ∈ (clients s).*1)).
  - intros ws [user Hu]. simpl in Hu. by rewrite lookup_empty in Hu.
  - intros e s Hs c Hc.
    destruct e as [|ws frame clk|ws|ws clk|t]; simpl in *.
    + rewrite fmap_app. apply elem_of_app. left. by apply Hs.
    + case_decide as Hin; [|by apply Hs].
      destruct (onMessage_frame clk ws frame s) as (-> & Hus & _).
      destruct (decide (c = ws)) as [->|Hne]; [done|].
      apply Hs. by rewrite <- Hus.
    + rewrite setReadyState_ids. by apply Hs.
    + case_decide as Hin; [|by apply Hs].
      destruct (onClose_frame clk ws (withClients (removeClient ws) s))
        as (-> & Hus & Hgone & _).
      destruct (decide (c = ws)) as [->|Hne].
      * rewrite Hgone in Hc. by destruct Hc.
      * simpl. apply removeClient_others; [done|]. apply Hs.
        rewrite Hus in Hc by done. done.
    + by apply Hs.
Qed.

Lemma sessions_are_connected_witness :
  is_Some (users (run serverMorning init) !! 2) ∧
  2 ∈ (clients (run serverMorning init)).*1.
Proof.
  assert (is_Some (users (run serverMorning init) !! 2)) as Hu
    by (vm_compute; eauto).
  split; [exact Hu|]. by apply sessions_are_connected.
Defined.

End ServerMore.

(** ** src/unnamed/part_002: the rest of the listeners *)

Module Part002More.
Import Part002 Part002Props.

Lemma part002_run_snoc tr e s : run (tr ++ [e]) s = (step e (run tr s)).1.
Proof. unfold run. by rewrite foldl_app. Qed.

Lemma part002_run_invariant (P : State → Prop) :
  P init → (∀ e s, P s → P (step e s).1) → ∀ tr, P (run tr init).
Proof.
  intros H0 Hstep tr. induction tr as [|e tr IH] using rev_ind; [done|].
  rewrite part002_run_snoc. by apply Hstep.
Qed.

Lemma orDefault_nonempty x d : d ≠ "" → orDefault x d ≠ "".
Proof. intros Hd. unfold orDefault. destruct x as [x|]; [|done]. by case_decide. Qed.

(** The four ways in which a frame changes the state. *)
Lemma part002_onMessage_cases clk ws frame s :
  (onMessage clk ws frame s).1 = s
  ∨ (∃ user n, users s !! ws = Some user ∧
       (onMessage clk ws frame s).1 =
         withHistory (pushHistory MAX_HISTORY "global"
                        (SysMsg ("[" +:+ n +:+ "] joined the chat.") (stamp clk) (now clk)))
           (withUsers (<[ws := mkUser (Some n) (teamCode user) true]>) s))
  ∨ (∃ user t entry, users s !! ws = Some user ∧ joined user = true ∧
       teamEntry t = Some entry ∧
       (onMessage clk ws frame s).1 =
         withTeamChannels (<[t := setAdd ws (members s t)]>)
           (withUsers (<[ws := mkUser (username user) (Some t) true]>) s))
  ∨ (∃ user text ch, users s !! ws = Some user ∧ joined user = true ∧ ch ≠ "" ∧
       (onMessage clk ws frame s).1 =
         withHistory (pushHistory MAX_HISTORY ch
                        (ChatMsg (username user) text (stamp clk) ch (now clk))) s).
Proof.
  destruct frame as [|[name|t key|text channel|channel|]]; simpl; try by left.
  - destruct (users s !! ws) as [user|] eqn:Hu; [|by left].
    right. left. by exists user, (orDefault name "AnonymousSnake").
  - unfold handleJoinTeam. destruct (users s !! ws) as [user|] eqn:Hu; [|by left].
    destruct (joined user) eqn:Hj; [|by left].
    destruct (teamEntry t) as [entry|] eqn:Hc; [|by left].
    case_decide; [|by left]. right. right. left. by exists user, t, entry.
  - destruct (users s !! ws) as [user|] eqn:Hu; [|by left].
    destruct (joined user) eqn:Hj; [|by left].
    unfold handleChatMessage. rewrite Hu. simpl.
    destruct (appendHistory _ _ _ _) as [h|] eqn:Hh; simpl; [|by left].
    apply appendHistory_Some in Hh as ->.
    right. right. right. exists user, text, (orDefault channel "global").
    split_and!; try done. by apply orDefault_nonempty.
  - destruct (users s !! ws) as [user|]; [|by left]. by destruct (joined user); left.
Qed.

(** What a close does to the state. *)
Lemma part002_onClose_cases clk ws s :
  (onClose clk ws s).1 = s
  ∨ (∃ user, users s !! ws = Some user ∧ joined user = true ∧
       nextConn (onClose clk ws s).1 = nextConn s ∧
       clients (onClose clk ws s).1 = clients s ∧
       users (onClose clk ws s).1 = delete ws (users s) ∧
       messageHistory (onClose clk ws s).1 =
         pushHistory MAX_HISTORY "global"
           (SysMsg ("[" +:+ default "null" (username user) +:+ "] left the chat.")
              (stamp clk) (now clk)) (messageHistory s) ∧
       ∀ t, members (onClose clk ws s).1 t = members s t ∨
            (teamCode user = Some t ∧
             members (onClose clk ws s).1 t = setDelete ws (members s t))).
Proof.
  unfold onClose. destruct (users s !! ws) as [user|] eqn:Hu; [|by left].
  destruct (joined user) eqn:Hj; [|by left]. right. exists user. simpl.
  destruct (teamCode user) as [t0|] eqn:Ht; simpl;
    [destruct (bool_decide (t0 ≠ "")); simpl|]; split_and!; try done; try by auto.
  intros t. destruct (decide (t0 = t)) as [<-|Hne].
  - right. split; [done|]. unfold members. simpl. rewrite lookup_alter_eq.
    by destruct (teamChannels s !! _).
  - left. unfold members. simpl. by rewrite lookup_alter_ne.
Qed.

Lemma part002_step_history e s :
  messageHistory (step e s).1 = messageHistory s
  ∨ (∃ ch m, messageHistory (step e s).1 = pushHistory MAX_HISTORY ch m (messageHistory s))
  ∨ (∃ t, messageHistory (step e s).1 = cleanup MSG_LIFETIME_MS t (messageHistory s)).
Proof.
  destruct e as [|ws frame clk|ws|ws clk|t]; simpl; try by left.
  - case_decide; [|by left].
    destruct (part002_onMessage_cases clk ws frame s)
      as [->|[(? & ? & _ & ->)|[(? & ? & ? & _ & _ & _ & ->)|(? & ? & ? & _ & _ & _ & ->)]]];
      simpl; eauto.
  - case_decide; [|by left].
    destruct (part002_onClose_cases clk ws (withClients (removeClient ws) s))
      as [->|(? & _ & _ & _ & _ & _ & -> & _)]; simpl; eauto.
  - right. right. by eexists.
Qed.

Lemma part002_init_history ch : getHistory (messageHistory init) ch = [].
Proof.
  unfold getHistory, init. simpl.
  destruct (_ !! ch) as [l|] eqn:E; simpl; [|done].
  apply lookup_insert_Some in E as [[_ <-]|[_ E]]; [done|].
  apply lookup_insert_Some in E as [[_ <-]|[_ E]]; [done|].
  apply lookup_insert_Some in E as [[_ <-]|[_ E]]; [done|].
  by rewrite lookup_empty in E.
Qed.

(** X12. After any sequence of events of [src/unnamed/part_002], every
    channel's history buffer holds at most [MAX_HISTORY] = 50 records, so
    the single [shift] after each [push] is enough. *)
Theorem part002_history_bounded :
  ∀ (tr : list Event) (ch : string),
    length (getHistory (messageHistory (run tr init)) ch) ≤ MAX_HISTORY.
Proof.
  intros tr.
  apply (part002_run_invariant (λ s, ∀ ch, length (getHistory (messageHistory s) ch) ≤ MAX_HISTORY)).
  - intros ch. rewrite part002_init_history. simpl. lia.
  - intros e s Hs ch.
    destruct (part002_step_history e s) as [->|[(? & ? & ->)|(? & ->)]];
      auto using push_length_bound, cleanup_length_bound.
Qed.

(** ** Sessions of part_002 *)

Lemma part002_members_add f s t ws x t' :
  x ∈ members (withTeamChannels (<[t := setAdd ws (members s t)]>) (withUsers f s)) t'
  ↔ x ∈ members s t' ∨ (x = ws ∧ t' = t).
Proof.
  unfold members at 1. simpl. destruct (decide (t = t')) as [->|Hne].
  - rewrite lookup_insert_eq. simpl. rewrite ServerProps.elem_of_setAdd.
    fold (members s t'). tauto.
  - rewrite lookup_insert_ne by done. fold (members s t'). intuition congruence.
Qed.

Lemma part002_step_sessions e s : part002SessionsOk s → part002SessionsOk (step e s).1.
Proof.
  intros Hok. destruct e as [|ws frame clk|ws|ws clk|t]; simpl; try exact Hok.
  - intros c user Hu. simpl in Hu.
    apply lookup_insert_Some in Hu as [[_ <-]|[_ Hu]]; [done|]. by apply Hok.
  - case_decide; [|done].
    destruct (part002_onMessage_cases clk ws frame s)
      as [->|[(user & n & Hu & ->)|[(user & t & entry & Hu & Hj & Hc & ->)
                                   |(user & text & ch & Hu & Hj & Hne & ->)]]];
      [done| | |exact Hok].
    + intros c user' Hu'. simpl in Hu'.
      apply lookup_insert_Some in Hu' as [[<- <-]|[_ Hu']]; simpl.
      * split; [by eauto|]. intros t Ht. destruct (Hok ws user Hu) as [_ Hteam].
        destruct (Hteam t Ht) as (_ & ? & ?). done.
      * by apply Hok.
    + intros c user' Hu'. simpl in Hu'.
      apply lookup_insert_Some in Hu' as [[<- <-]|[_ Hu']]; simpl.
      * destruct (Hok ws user Hu) as [Hname _]. split; [by auto|].
        intros t' [= <-]. split_and!; [done|by eauto|].
        apply part002_members_add. by right.
      * destruct (Hok c user' Hu') as [Hname Hteam]. split; [done|].
        intros t' Ht'. destruct (Hteam t' Ht') as (? & ? & ?). split_and!; [done|done|].
        apply part002_members_add. by left.
  - case_decide; [|done].
    destruct (part002_onClose_cases clk ws (withClients (removeClient ws) s))
      as [->|(user & Hu & Hj & _ & _ & Hus & _ & Hm)]; [exact Hok|].
    intros c user' Hu'. rewrite Hus in Hu'. simpl in Hu'.
    apply lookup_delete_Some in Hu' as [Hne Hu'].
    destruct (Hok c user' Hu') as [Hname Hteam]. split; [done|].
    intros t Ht. destruct (Hteam t Ht) as (? & ? & Hin). split_and!; [done|done|].
    destruct (Hm t) as [->|[_ ->]]; [done|].
    apply ServerProps.elem_of_setDelete. by split.
Qed.

(** X18. In every state of [src/unnamed/part_002] reached from the initial
    one, a joined session has a display name, and a session that has a
    team is joined, [teamCodes[team]] is truthy, the team being a key of
    the table or a name that every object inherits, and its socket is in
    that team's set. *)
Theorem part002_sessions_consistent :
  ∀ (tr : list Event) (ws : conn) (user : User),
    users (run tr init) !! ws = Some user →
    (joined user = true → is_Some (username user)) ∧
    ∀ t, teamCode user = Some t →
      joined user = true ∧
      (is_Some (teamCodes !! t) ∨ inherited t = true) ∧
      ws ∈ members (run tr init) t.
Proof.
  intros tr ws user Hu.
  assert (part002SessionsOk (run tr init)) as Hok.
  { apply (part002_run_invariant part002SessionsOk); [|apply part002_step_sessions].
    intros ws' user' Hu'. simpl in Hu'. by rewrite lookup_empty in Hu'. }
  destruct (Hok ws user Hu) as [Hname Hteam]. split; [done|].
  intros t Ht. destruct (Hteam t Ht) as (Hj & [entry He] & Hm). split_and!; [done| |done].
  unfold teamEntry in He. destruct (teamCodes !! t); [by left; eauto|].
  right. by destruct (inherited t).
Qed.

Lemma part002_sessions_consistent_witness :
  users part002Evening !! 2 = Some (mkUser (Some "bob") (Some "[SMT]") true) ∧
  2 ∈ members part002Evening "[SMT]" ∧
  users (run (part002Morning ++
              [EMessage 2 (Json (JoinTeam "constructor" Absent)) (clockAt 4000)]) init) !! 2
    = Some (mkUser (Some "bob") (Some "constructor") true) ∧
  teamCodes !! "constructor" = None.
Proof.
  assert (users (run part002Afternoon init) !! 2 = Some (mkUser (Some "bob") (Some "[SMT]") true))
    as Hu by (by vm_compute).
  split; [exact Hu|].
  destruct (part002_sessions_consistent part002Afternoon 2 _ Hu) as [_ Hteam].
  destruct (Hteam "[SMT]" eq_refl) as (_ & _ & Hm).
  split; [exact Hm|]. by vm_compute.
Defined.

(** ** What the history of part_002 holds *)

Lemma part002_step_filed e s :
  part002SessionsOk s →
  (∀ ch m, m ∈ getHistory (messageHistory s) ch → filedUnder ch m ∧ named m) →
  ∀ ch m, m ∈ getHistory (messageHistory (step e s).1) ch →
    filedUnder ch m ∧ named m.
Proof.
  intros Hok Hs. destruct e as [|ws frame clk|ws|ws clk|t]; simpl; try exact Hs.
  - case_decide; [|done].
    destruct (part002_onMessage_cases clk ws frame s)
      as [->|[(user & n & Hu & ->)|[(user & t & entry & Hu & Hj & Hc & ->)
                                   |(user & text & ch0 & Hu & Hj & Hne & ->)]]];
      [done| |exact Hs|]; simpl; intros ch m Hin.
    + apply ServerProps.elem_of_push in Hin as [?|[-> ->]]; [by apply Hs|done].
    + apply ServerProps.elem_of_push in Hin as [?|[-> ->]]; [by apply Hs|].
      destruct (Hok ws user Hu) as [Hname _]. simpl. auto.
  - case_decide; [|done].
    destruct (part002_onClose_cases clk ws (withClients (removeClient ws) s))
      as [->|(user & Hu & Hj & _ & _ & _ & Hh & _)]; [exact Hs|].
    rewrite Hh. simpl. intros ch m Hin.
    apply ServerProps.elem_of_push in Hin as [?|[-> ->]]; [by apply Hs|done].
  - intros ch m Hin. rewrite getHistory_cleanup in Hin.
    apply list_elem_of_filter in Hin as [_ ?]. by apply Hs.
Qed.

(** X19. In every state of [src/unnamed/part_002] reached from the initial
    one, a chat record sits in the buffer keyed by the channel it names and
    carries the display name of its author, and a system record sits in
    the global buffer. *)
Theorem part002_history_well_filed :
  ∀ (tr : list Event) (ch : string) (m : Msg),
    m ∈ getHistory (messageHistory (run tr init)) ch →
    filedUnder ch m ∧ named m.
Proof.
  intros tr.
  apply (part002_run_invariant
           (λ s, part002SessionsOk s ∧
                 ∀ ch m, m ∈ getHistory (messageHistory s) ch →
                         filedUnder ch m ∧ named m)).
  - split.
    + intros ws user Hu. simpl in Hu. by rewrite lookup_empty in Hu.
    + intros ch m Hin. rewrite part002_init_history in Hin. by apply elem_of_nil in Hin.
  - intros e s [Hok Hs]. split; [by apply part002_step_sessions|].
    by apply part002_step_filed.
Qed.

Lemma part002_history_well_filed_witness :
  SysMsg "[bob] joined the chat." "10:00:00" 3000
    ∈ getHistory (messageHistory (run part002Morning init)) "global" ∧
  filedUnder "global" (SysMsg "[bob] joined the chat." "10:00:00" 3000) ∧
  getHistory
    (messageHistory
       (run (part002Afternoon ++
             [EMessage 2 (Json (ChatMessage "smt only" (Some "[SMT]"))) (clockAt 6000)]) init))
    "[SMT]"
    = [ChatMsg (Some "bob") "smt only" "10:00:00" "[SMT]" 6000].
Proof.
  assert (SysMsg "[bob] joined the chat." "10:00:00" 3000
            ∈ getHistory (messageHistory (run part002Morning init)) "global") as Hin
    by (vm_compute; apply list_elem_of_further, list_elem_of_here).
  split; [exact Hin|].
  destruct (part002_history_well_filed part002Morning "global" _ Hin) as [Hfiled _].
  split; [exact Hfiled|]. by vm_compute.
Defined.

(** ** Who is sent a record by part_002 *)

Lemma removeClient_ids (c x : conn) (cl : list (conn * ReadyState)) :
  x ∈ (removeClient c cl).*1 → x ≠ c ∧ x ∈ cl.*1.
Proof.
  intros [p [-> [? ?]%elem_of_removeClient]]%list_elem_of_fmap.
  split; [done|]. apply list_elem_of_fmap. by exists p.
Qed.

Lemma isJoined_insert s ws user c :
  joined user = true → isJoined s c = true →
  isJoined (withUsers (<[ws := user]>) s) c = true.
Proof.
  intros Hj Hc. unfold isJoined in *. simpl.
  destruct (decide (ws = c)) as [->|Hne].
  - by rewrite lookup_insert_eq.
  - by rewrite lookup_insert_ne.
Qed.

Lemma part002_step_teams e s : part002TeamsOk s → part002TeamsOk (step e s).1.
Proof.
  intros (HA & HB & HC). destruct e as [|ws frame clk|ws|ws clk|t]; simpl;
    try by split_and!.
  - split_and!; simpl.
    + intros c. rewrite fmap_app, elem_of_app. simpl.
      intros [?%HA| ->%list_elem_of_singleton]; lia.
    + intros t c ?%HB. lia.
    + intros t c Hm. pose proof (HB t c Hm) as Hlt.
      rewrite fmap_app, elem_of_app. simpl.
      intros [Hin| ->%list_elem_of_singleton]; [|lia].
      unfold isJoined. simpl. rewrite lookup_insert_ne by lia. by apply (HC t c).
  - case_decide as Hin; [|by split_and!].
    destruct (part002_onMessage_cases clk ws frame s)
      as [->|[(user & n & Hu & ->)|[(user & t & entry & Hu & Hj & Hc & ->)
                                   |(user & text & ch0 & Hu & Hj & Hne & ->)]]];
      [by split_and!| | |by split_and!].
    + split_and!; [exact HA|exact HB|]. intros t c Hm Hc.
      apply (isJoined_insert s); [done|]. by apply (HC t c).
    + split_and!; [exact HA| |].
      * intros t' c [?| [-> _]]%part002_members_add; [by eapply HB|by apply HA].
      * intros t' c [Hm| [-> _]]%part002_members_add Hc'.
        -- apply (isJoined_insert s); [done|]. by apply (HC t' c).
        -- unfold isJoined. simpl. by rewrite lookup_insert_eq.
  - split_and!; [|exact HB|]; simpl; rewrite setReadyState_ids; [exact HA|exact HC].
  - case_decide as Hin; [|by split_and!].
    destruct (part002_onClose_cases clk ws (withClients (removeClient ws) s))
      as [->|(user & Hu & Hj & Hn & Hcl & Hus & _ & Hm)].
    + split_and!; simpl; [|exact HB|].
      * intros c [_ ?]%removeClient_ids. by apply HA.
      * intros t c Hmem [_ ?]%removeClient_ids. by apply (HC t c).
    + assert (∀ t c, c ∈ members (onClose clk ws (withClients (removeClient ws) s)).1 t →
                     c ∈ members s t) as Hsub.
      { intros t c. destruct (Hm t) as [->|[_ ->]]; [done|].
        by intros [_ ?]%ServerProps.elem_of_setDelete. }
      split_and!; rewrite ?Hn, ?Hcl; simpl.
      * intros c [_ ?]%removeClient_ids. by apply HA.
      * intros t c ?%Hsub. by eapply HB.
      * intros t c Hmem%Hsub [Hne Hc]%removeClient_ids.
        pose proof (HC t c Hmem Hc) as Hjc. unfold isJoined in *.
        rewrite Hus. by rewrite lookup_delete_ne.
Qed.

Lemma part002_reachable_teams tr : part002TeamsOk (run tr init).
Proof.
  apply part002_run_invariant; [|apply part002_step_teams].
  split_and!; simpl.
  - by intros c ?%elem_of_nil.
  - intros t c. unfold members. simpl. rewrite lookup_empty. by intros ?%elem_of_nil.
  - intros t c. unfold members. simpl. rewrite lookup_empty. by intros ?%elem_of_nil.
Qed.

Lemma part002_broadcast_recipients msg s c o :
  (c, o) ∈ broadcastMessage msg s
  ↔ o = ORecord msg ∧ (c, OPEN) ∈ clients s ∧ isJoined s c = true.
Proof.
  unfold broadcastMessage. rewrite list_elem_of_fmap. split.
  - intros [[c' r] [[= -> ->] [[Hopen Hjc] Hin]%list_elem_of_filter]].
    simpl in *. by subst.
  - intros (-> & Hin & Hjc). exists (c, OPEN). split; [done|].
    by apply list_elem_of_filter.
Qed.

Lemma sendHistory_no_record ws ch s c m : (c, ORecord m) ∉ sendHistory ws ch s.
Proof.
  unfold sendHistory, historyFrame. intros [= _ H]%list_elem_of_singleton.
  destruct (messageHistory s !! ch); [done|]. by destruct (inherited ch).
Qed.

Ltac no_record H :=
  repeat (apply elem_of_cons in H as [H|H]; [discriminate H|]);
  first [by apply elem_of_nil in H | by apply sendHistory_no_record in H].

(** X11. In every state of [src/unnamed/part_002] reached from the initial
    one, whatever the event, a chat or system record is only ever sent to a
    socket that is open in [wss.clients] and whose session is joined once
    the event has been handled: a socket that has not sent [user-join]
    receives no record, on the global channel or on a team channel. *)
Theorem part002_records_only_to_joined :
  ∀ (tr : list Event) (e : Event) (c : conn) (m : Msg),
    (c, ORecord m) ∈ (step e (run tr init)).2 →
    isJoined (step e (run tr init)).1 c = true ∧ (c, OPEN) ∈ clients (run tr init).
Proof.
  intros tr e c m. pose proof (part002_reachable_teams tr) as (_ & _ & HC).
  generalize dependent (run tr init). intros s HC.
  destruct e as [|ws frame clk|ws|ws clk|t]; simpl;
    try (by intros ?%elem_of_nil).
  - case_decide as Hin; [|by intros ?%elem_of_nil].
    destruct frame as [|[name|t key|text channel|channel|]]; simpl.
    + intros H. no_record H.
    + destruct (users s !! ws) as [user|] eqn:Hu; [|intros H; no_record H].
      simpl. intros [H|H]%elem_of_app; [|no_record H].
      by apply part002_broadcast_recipients in H as (_ & ? & ?).
    + unfold handleJoinTeam. intros H. repeat case_match; simpl in H; no_record H.
    + destruct (users s !! ws) as [user|] eqn:Hu; [|intros H; no_record H].
      destruct (joined user) eqn:Hj; [|by intros ?%elem_of_nil].
      unfold handleChatMessage. rewrite Hu. simpl.
      destruct (appendHistory _ _ _ _) as [h|]; simpl; [|intros H; no_record H].
      case_decide; [by intros (_ & ? & ?)%part002_broadcast_recipients|].
      destruct (truthy (teamCode user)); [|by intros ?%elem_of_nil].
      unfold sendToTeam. simpl.
      destruct (teamChannels s !! default "" (teamCode user)) as [teamUsers|] eqn:Ht;
        [|by intros ?%elem_of_nil].
      intros (_ & Hm & Hopen%readyStateOf_OPEN)%elem_of_sendToOpen.
      split; [|done].
      apply (HC (default "" (teamCode user)) c).
      * unfold members. by rewrite Ht.
      * apply list_elem_of_fmap. by exists (c, OPEN).
    + destruct (users s !! ws) as [user|]; [|intros H; no_record H].
      destruct (joined user); intros H; no_record H.
    + intros H. no_record H.
  - case_decide as Hin; [|by intros ?%elem_of_nil].
    unfold onClose. simpl.
    destruct (users s !! ws) as [user|] eqn:Hu; [|by intros ?%elem_of_nil].
    destruct (joined user) eqn:Hj; [|by intros ?%elem_of_nil]. simpl.
    intros (_ & [Hne Hopen]%elem_of_removeClient & Hjc)%part002_broadcast_recipients.
    simpl in *. split; [|done]. unfold isJoined in *. simpl in *.
    by destruct (truthy (teamCode user)); simpl; rewrite lookup_delete_ne.
Qed.

Lemma part002_records_only_to_joined_witness :
  (2, ORecord (SysMsg "[alice] left the chat." "10:00:00" 9000))
    ∈ (step (EClose 0 (clockAt 9000)) (run part002Morning init)).2 ∧
  isJoined (step (EClose 0 (clockAt 9000)) (run part002Morning init)).1 2 = true.
Proof.
  assert ((2, ORecord (SysMsg "[alice] left the chat." "10:00:00" 9000))
            ∈ (step (EClose 0 (clockAt 9000)) (run part002Morning init)).2) as Hin
    by (vm_compute; apply list_elem_of_here).
  split; [exact Hin|].
  by destruct (part002_records_only_to_joined part002Morning _ _ _ Hin) as [? _].
Defined.

(** X10. A joined session of [src/unnamed/part_002] sends a chat message
    whose channel is "global", empty or absent. The record names the global
    channel, becomes the last record of the global history, and is sent to
    exactly the sockets that are open and whose session is joined. *)
Theorem part002_global_chat_fanout :
  ∀ (s : State) (ws : conn) (user : User) (clk : Clock) (text : string)
    (channel : option string),
    users s !! ws = Some user →
    joined user = true →
    channel = None ∨ channel = Some "" ∨ channel = Some "global" →
    let msg := ChatMsg (username user) text (stamp clk) "global" (now clk) in
    let r := onMessage clk ws (Json (ChatMessage text channel)) s in
    last (getHistory (messageHistory r.1) "global") = Some msg ∧
    ∀ c o, (c, o) ∈ r.2 ↔ o = ORecord msg ∧ (c, OPEN) ∈ clients s ∧ isJoined s c = true.
Proof.
  intros s ws user clk text channel Hu Hj Hch msg r.
  assert (orDefault channel "global" = "global") as Hg
    by (destruct Hch as [->|[->| ->]]; done).
  assert (r = (withHistory (pushHistory MAX_HISTORY "global" msg) s,
               broadcastMessage msg (withHistory (pushHistory MAX_HISTORY "global" msg) s)))
    as ->.
  { unfold r. simpl. rewrite Hu, Hj, Hg.
    by rewrite (part002_handleChatMessage_plain _ _ _ _ _ _ Hu inherited_global). }
  simpl. split.
  - rewrite (push_shape MAX_HISTORY) by (unfold MAX_HISTORY; lia). apply last_snoc.
  - intros c o. by rewrite part002_broadcast_recipients.
Qed.

Lemma part002_global_chat_fanout_witness :
  users part002Noon !! 2 = Some (mkUser (Some "bob") None true) ∧
  last (getHistory
          (messageHistory (onMessage (clockAt 5000) 2 (Json (ChatMessage "hi all" None)) part002Noon).1)
          "global")
    = Some (ChatMsg (Some "bob") "hi all" "10:00:00" "global" 5000).
Proof.
  assert (users part002Noon !! 2 = Some (mkUser (Some "bob") None true)) as Hu
    by (by vm_compute).
  split; [exact Hu|].
  by destruct (part002_global_chat_fanout part002Noon 2 _ (clockAt 5000) "hi all" None
                 Hu eq_refl (or_introl eq_refl)) as [? _].
Defined.

(** X13. The socket of a session that never sent [user-join] closes. The
    ['close'] listener does nothing: nobody is sent a notice, the history
    is unchanged, and the unjoined session stays in the session table
    although its socket has left [wss.clients]. *)
Theorem part002_unjoined_close_keeps_session :
  ∀ (s : State) (ws : conn) (user : User) (clk : Clock),
    ws ∈ (clients s).*1 →
    users s !! ws = Some user →
    joined user = false →
    let r := step (EClose ws clk) s in
    r = (withClients (removeClient ws) s, []) ∧
    users r.1 !! ws = Some user ∧
    ws ∉ (clients r.1).*1.
Proof.
  intros s ws user clk Hin Hu Hj r.
  assert (r = (withClients (removeClient ws) s, [])) as ->.
  { unfold r. simpl. rewrite decide_True by done. unfold onClose. simpl.
    by rewrite Hu, Hj. }
  split_and!; [done|done|]. simpl. apply removeClient_gone.
Qed.

Lemma part002_unjoined_close_keeps_session_witness :
  1 ∈ (clients part002Noon).*1 ∧
  users part002Noon !! 1 = Some (mkUser None None false) ∧
  users (step (EClose 1 (clockAt 9000)) part002Noon).1 !! 1 = Some (mkUser None None false) ∧
  1 ∉ (clients (step (EClose 1 (clockAt 9000)) part002Noon).1).*1.
Proof.
  assert (1 ∈ (clients part002Noon).*1) as Hin
    by (vm_compute; apply list_elem_of_further, list_elem_of_here).
  assert (users part002Noon !! 1 = Some (mkUser None None false)) as Hu by (by vm_compute).
  destruct (part002_unjoined_close_keeps_session part002Noon 1 _ (clockAt 9000) Hin Hu eq_refl)
    as (_ & ? & ?).
  by split_and!.
Defined.

(** X14. A joined session of [src/unnamed/part_002] sends a chat message
    whose channel is any non-empty string other than "global". When the
    channel is not an inherited name, the record is stored at the tail of
    the buffer keyed by that channel, and no other buffer changes; it is
    sent to the open sockets of the sender's own team set, whatever the
    channel names, and to nobody when the sender has no team. When the
    channel is an inherited name without a buffer, the append raises: the
    sender is sent the error notice and the state is unchanged. *)
Theorem part002_any_channel_goes_to_own_team :
  ∀ (s : State) (ws : conn) (user : User) (clk : Clock) (text ch : string),
    users s !! ws = Some user →
    joined user = true →
    ch ≠ "" → ch ≠ "global" →
    let msg := ChatMsg (username user) text (stamp clk) ch (now clk) in
    let r := onMessage clk ws (Json (ChatMessage text (Some ch))) s in
    (inherited ch = false →
       last (getHistory (messageHistory r.1) ch) = Some msg ∧
       (∀ ch', ch' ≠ ch →
          getHistory (messageHistory r.1) ch' = getHistory (messageHistory s) ch') ∧
       ∀ c o, (c, o) ∈ r.2 ↔
         o = ORecord msg ∧
         ∃ t, teamCode user = Some t ∧ t ≠ "" ∧ c ∈ members s t ∧
              readyStateOf (clients s) c = OPEN) ∧
    (inherited ch = true → messageHistory s !! ch = None →
       r = (s, [(ws, OSystem "Error processing your request." (stamp clk))])).
Proof.
  intros s ws user clk text ch Hu Hj Hne Hng msg r.
  assert (orDefault (Some ch) "global" = ch) as Hch
    by (unfold orDefault; by rewrite (decide_False (P := ch = ""))).
  split.
  - intros Hi.
    assert (r = (withHistory (pushHistory MAX_HISTORY ch msg) s,
                 if truthy (teamCode user)
                 then sendToTeam s (default "" (teamCode user)) (ORecord msg) else [])) as ->.
    { unfold r, onMessage. rewrite Hu, Hj, Hch.
      rewrite (part002_handleChatMessage_plain _ _ _ _ _ _ Hu Hi). simpl. by rewrite decide_False. }
    simpl. split_and!.
    + rewrite (push_shape MAX_HISTORY) by (unfold MAX_HISTORY; lia). apply last_snoc.
    + intros ch' Hne'. by apply getHistory_push_ne.
    + intros c o. destruct (teamCode user) as [t|]; simpl.
      * destruct (bool_decide (t ≠ "")) eqn:Ht.
        -- apply bool_decide_eq_true in Ht. unfold sendToTeam, members.
           destruct (teamChannels s !! t) as [teamUsers|] eqn:E; simpl.
           ++ rewrite elem_of_sendToOpen. split.
              ** intros (-> & ? & ?). split; [done|]. exists t. by rewrite E.
              ** intros (-> & t' & [= <-] & _ & Hm & ?). by rewrite E in Hm.
           ++ split; [by intros ?%elem_of_nil|].
              intros (_ & t' & [= <-] & _ & Hm & _). rewrite E in Hm.
              by apply elem_of_nil in Hm.
        -- apply bool_decide_eq_false in Ht. split; [by intros ?%elem_of_nil|].
           intros (_ & t' & [= <-] & ? & _). done.
      * split; [by intros ?%elem_of_nil|]. by intros (_ & t' & ? & _).
  - intros Hi Hn. unfold r, onMessage. rewrite Hu, Hj, Hch.
    unfold handleChatMessage. rewrite Hu. simpl.
    by rewrite appendHistory_raises.
Qed.

Lemma part002_any_channel_goes_to_own_team_witness :
  users part002Evening !! 0 = Some (mkUser (Some "alice") (Some "[REKT]") true) ∧
  last (getHistory
          (messageHistory
             (onMessage (clockAt 6000) 0 (Json (ChatMessage "boo" (Some "[SMT]"))) part002Evening).1)
          "[SMT]")
    = Some (ChatMsg (Some "alice") "boo" "10:00:00" "[SMT]" 6000) ∧
  onMessage (clockAt 6000) 0 (Json (ChatMessage "boo" (Some "valueOf"))) part002Evening
    = (part002Evening, [(0, OSystem "Error processing your request." "10:00:00")]).
Proof.
  assert (users part002Evening !! 0 = Some (mkUser (Some "alice") (Some "[REKT]") true)) as Hu
    by (by vm_compute).
  split; [exact Hu|].
  destruct (part002_any_channel_goes_to_own_team part002Evening 0 _ (clockAt 6000) "boo"
              "[SMT]" Hu eq_refl) as [Hplain _]; [done|done|].
  destruct (Hplain eq_refl) as [Hlast _].
  destruct (part002_any_channel_goes_to_own_team part002Evening 0 _ (clockAt 6000) "boo"
              "valueOf" Hu eq_refl) as [_ Hraises]; [done|done|].
  split; [exact Hlast|]. apply Hraises; by vm_compute.
Defined.

(** X15. Any joined session, member of the team or not, can put a record
    into the buffer of a team by naming the team code as channel; a session
    that joins that team afterwards is sent a history that ends with this
    record. *)
Theorem part002_outsider_record_reaches_new_members :
  ∀ (s : State) (ws : conn) (user : User) (clk : Clock) (text t : string)
    (cred : Credential),
    users s !! ws = Some user →
    joined user = true →
    teamCodes !! t = Some cred →
    let msg := ChatMsg (username user) text (stamp clk) t (now clk) in
    let s1 := (onMessage clk ws (Json (ChatMessage text (Some t))) s).1 in
    ∀ (ws2 : conn) (user2 : User) (clk2 : Clock),
      users s1 !! ws2 = Some user2 →
      joined user2 = true →
      ∃ older,
        (onMessage clk2 ws2 (Json (JoinTeam t (Str (authorKey cred)))) s1).2
          = [(ws2, OSystem ("Joined team channel for " +:+ code cred) (stamp clk2));
             (ws2, OHistory (older ++ [msg]))].
Proof.
  intros s ws user clk text t cred Hu Hj Hc msg s1 ws2 user2 clk2 Hu2 Hj2.
  assert (t ≠ "" ∧ t ≠ "global" ∧ inherited t = false) as (Hne & Hng & Hi).
  { unfold teamCodes in Hc.
    apply lookup_insert_Some in Hc as [[<- _]|[_ Hc]]; [done|].
    apply lookup_insert_Some in Hc as [[<- _]|[_ Hc]]; [done|].
    by rewrite lookup_empty in Hc. }
  assert (s1 = withHistory (pushHistory MAX_HISTORY t msg) s) as Hs1.
  { unfold s1, onMessage. rewrite Hu, Hj. unfold orDefault.
    rewrite (decide_False (P := t = "")) by done.
    by rewrite (part002_handleChatMessage_plain _ _ _ _ _ _ Hu Hi). }
  simpl. unfold handleJoinTeam, teamEntry. rewrite Hu2, Hj2, Hc. simpl.
  rewrite decide_True by done.
  simpl. unfold sendHistory. simpl. rewrite Hs1. simpl. rewrite historyFrame_push.
  rewrite (push_shape MAX_HISTORY) by (unfold MAX_HISTORY; lia). by eexists.
Qed.

Lemma part002_outsider_record_reaches_new_members_witness :
  users part002Evening !! 0 = Some (mkUser (Some "alice") (Some "[REKT]") true) ∧
  teamCodes !! "[SMT]" = Some (mkCredential "SMT" "authorKeySMT") ∧
  ∃ older,
    (onMessage (clockAt 7000) 2 (Json (JoinTeam "[SMT]" (Str "authorKeySMT")))
       (onMessage (clockAt 6000) 0 (Json (ChatMessage "boo" (Some "[SMT]"))) part002Evening).1).2
    = [(2, OSystem "Joined team channel for SMT" "10:00:00");
       (2, OHistory (older ++ [ChatMsg (Some "alice") "boo" "10:00:00" "[SMT]" 6000]))].
Proof.
  assert (users part002Evening !! 0 = Some (mkUser (Some "alice") (Some "[REKT]") true)) as Hu
    by (by vm_compute).
  assert (teamCodes !! "[SMT]" = Some (mkCredential "SMT" "authorKeySMT")) as Hc
    by (by vm_compute).
  split; [exact Hu|]. split; [exact Hc|].
  apply (part002_outsider_record_reaches_new_members part002Evening 0 _ (clockAt 6000) "boo"
           "[SMT]" _ Hu eq_refl Hc 2 (mkUser (Some "bob") (Some "[SMT]") true) (clockAt 7000));
    by vm_compute.
Defined.





End Part002More.
